(** * rattler_bindings: a shallow embedding of [src/rattler_bindings.py]

    The module drives the external [rattler-build] executable: it builds the
    argument vector from a configuration ([rattler_build]), reads back the
    JSON event log, and reconciles that log with the file system to clean the
    build and source caches and to locate the produced package
    ([_clean_output], [optimized_rattler_build]).

    Layout of this development: Python values and exceptions, the string
    helpers of [shlex], the argument builder, the file-system model, the
    [datetime] arithmetic behind [_get_local_ts], the reconciler, the
    optimized driver, and then the properties proved about them. *)

From Stdlib Require Import ZArith Ascii.
From stdpp Require Import gmap strings list pretty.

Local Open Scope Z_scope.

(* ===================================================================== *)
(** ** Python values, exceptions *)
(* ===================================================================== *)

(** The exceptions the module raises itself or lets escape from the
    libraries it calls ([YAMLError] and [JSONDecodeError] come from the
    loaders).  Messages are kept where the source writes them; those of the
    standard library are abbreviated. *)
Inductive exn : Type :=
| IndexError
| KeyError (key : string)
| TypeError
| AttributeError
| StopIteration
| OverflowError
| NotImplementedError
| FileExistsError
| ValueError (msg : string)
| RuntimeError (msg : string)
| FileNotFoundError (msg : string)
| IsADirectoryError
| YAMLError
| JSONDecodeError.

Inductive result (A : Type) : Type :=
| Ok (a : A)
| Err (e : exn).
Arguments Ok {A} a.
Arguments Err {A} e.

Definition rbind {A B} (r : result A) (k : A → result B) : result B :=
  match r with Ok a => k a | Err e => Err e end.

Definition is_ok {A} (r : result A) : bool :=
  match r with Ok _ => true | Err _ => false end.

(** A parsed JSON document, as [json.loads] returns it.  A [dict] keeps its
    insertion order; number literals are kept as written. *)
#[local] Unset Elimination Schemes.
Inductive json : Type :=
| JNull
| JBool (b : bool)
| JNum (lit : string)
| JStr (s : string)
| JList (l : list json)
| JDict (kv : list (string * json)).
#[local] Set Elimination Schemes.

(** The argument of the two simplified options of the driver, typed
    [bool | Literal[...]] in the source. *)
Inductive pyval : Type :=
| PBool (b : bool)
| PStr (s : string).

Global Instance pyval_eq_dec : EqDecision pyval.
Proof. solve_decision. Defined.

(** Python truthiness of such a value ([if skip_existing:]). *)
Definition truthy (v : pyval) : bool :=
  match v with
  | PBool b => b
  | PStr s => negb (String.eqb s "")
  end.

(** An optional scalar handed to the argument builder: [str], [int] or
    [pathlib.Path] (kept as its string form). *)
Inductive scalar : Type :=
| SStr (s : string)
| SInt (z : Z)
| SPath (s : string).

(** [str(x)] *)
Definition py_str (x : scalar) : string :=
  match x with
  | SStr s => s
  | SInt z => pretty z
  | SPath s => s
  end.

Definition is_str (x : scalar) : bool :=
  match x with SStr _ => true | _ => false end.

(** [obj[key]] on a parsed JSON value. *)
Fixpoint assoc_get (kv : list (string * json)) (k : string) : option json :=
  match kv with
  | [] => None
  | (k', v) :: kv' => if String.eqb k' k then Some v else assoc_get kv' k
  end.

Definition getitem (o : json) (k : string) : result json :=
  match o with
  | JDict kv =>
      match assoc_get kv k with
      | Some v => Ok v
      | None => Err (KeyError k)
      end
  | _ => Err TypeError
  end.

(** A string method called on a JSON value: an [AttributeError] unless the
    value is a [str]. *)
Definition as_str (v : json) : result string :=
  match v with
  | JStr s => Ok s
  | _ => Err AttributeError
  end.

(* ===================================================================== *)
(** ** Strings *)
(* ===================================================================== *)

Definition SRC_PREFIX : string := "Copying source from url: ".
Definition BLD_PREFIX : string := "Build variant: ".

(** [s.startswith(p)] *)
Definition startswith (s p : string) : bool := String.prefix p s.

Fixpoint drop_string (n : nat) (s : string) : string :=
  match n, s with
  | O, _ => s
  | S n', String _ s' => drop_string n' s'
  | S _, EmptyString => EmptyString
  end.

(** [s.removeprefix(p)] *)
Definition removeprefix (s p : string) : string :=
  if startswith s p then drop_string (String.length p) s else s.

Definition chars (s : string) : list ascii := String.list_ascii_of_string s.
Definition of_chars (l : list ascii) : string := String.string_of_list_ascii l.

Definition ascii_in (c : ascii) (s : string) : bool :=
  existsb (Ascii.eqb c) (chars s).

(** *** [shlex.quote] *)

(** The characters outside [[^\w@%+=:,./-]] (with [re.ASCII]). *)
Definition shlex_safe_char (c : ascii) : bool :=
  let n := nat_of_ascii c in
  ((48 <=? n) && (n <=? 57))%nat || ((65 <=? n) && (n <=? 90))%nat
  || ((97 <=? n) && (n <=? 122))%nat || ascii_in c "_@%+=:,./-".

Definition squote : ascii := "'".
Definition dquote : ascii := "034".
Definition backslash : ascii := "\".

(** [s.replace("'", "'\"'\"'")] *)
Fixpoint replace_quote (l : list ascii) : list ascii :=
  match l with
  | [] => []
  | c :: l' =>
      if Ascii.eqb c squote
      then squote :: dquote :: squote :: dquote :: squote :: replace_quote l'
      else c :: replace_quote l'
  end.

Definition shlex_quote (s : string) : string :=
  match chars s with
  | [] => "''"
  | l =>
      if forallb shlex_safe_char l then s
      else of_chars (squote :: replace_quote l ++ [squote])
  end.

(** *** [shlex.split] (POSIX mode, no comments, [whitespace_split])

    The tokenizer of [shlex.shlex.read_token], one character at a time.
    [tok] is the token read so far (reversed), [quoted] records that a quote
    was seen in it, so that an empty quoted token is still emitted. *)
Inductive lex_state : Type :=
| LSpace                       (* between tokens *)
| LWord                        (* inside an unquoted word *)
| LQuote (q : ascii)           (* inside quotes opened by [q] *)
| LEscape (back : lex_state).  (* after a backslash *)

(** [shlex.whitespace]: space, tab, carriage return, line feed. *)
Definition is_space (c : ascii) : bool :=
  existsb (Ascii.eqb c) [" "; "009"; "013"; "010"]%char.
Definition is_quote (c : ascii) : bool :=
  Ascii.eqb c squote || Ascii.eqb c dquote.

Definition emit (tok : list ascii) (acc : list string) : list string :=
  of_chars (rev tok) :: acc.

Fixpoint shlex_go (l : list ascii) (st : lex_state) (tok : list ascii)
    (quoted : bool) (acc : list string) : result (list string) :=
  match l with
  | [] =>
      match st with
      | LSpace => Ok (rev acc)
      | LWord =>
          if negb (Nat.eqb (length tok) 0) || quoted
          then Ok (rev (emit tok acc)) else Ok (rev acc)
      | LQuote _ => Err (ValueError "No closing quotation")
      | LEscape _ => Err (ValueError "No escaped character")
      end
  | c :: l' =>
      match st with
      | LSpace =>
          if is_space c then shlex_go l' LSpace [] false acc
          else if Ascii.eqb c backslash then shlex_go l' (LEscape LWord) [] false acc
          else if is_quote c then shlex_go l' (LQuote c) [] true acc
          else shlex_go l' LWord [c] false acc
      | LWord =>
          if is_space c then
            (if negb (Nat.eqb (length tok) 0) || quoted
             then shlex_go l' LSpace [] false (emit tok acc)
             else shlex_go l' LSpace [] false acc)
          else if is_quote c then shlex_go l' (LQuote c) tok true acc
          else if Ascii.eqb c backslash then shlex_go l' (LEscape LWord) tok quoted acc
          else shlex_go l' LWord (c :: tok) quoted acc
      | LQuote q =>
          if Ascii.eqb c q then shlex_go l' LWord tok true acc
          else if Ascii.eqb c backslash && Ascii.eqb q dquote
          then shlex_go l' (LEscape (LQuote q)) tok true acc
          else shlex_go l' (LQuote q) (c :: tok) true acc
      | LEscape back =>
          match back with
          | LQuote q =>
              if negb (Ascii.eqb c backslash) && negb (Ascii.eqb c q)
              then shlex_go l' back (c :: backslash :: tok) quoted acc
              else shlex_go l' back (c :: tok) quoted acc
          | _ => shlex_go l' back (c :: tok) quoted acc
          end
      end
  end.

Definition shlex_split (s : string) : result (list string) :=
  shlex_go (chars s) LSpace [] false [].

(* ===================================================================== *)
(** ** Paths *)
(* ===================================================================== *)

(** A path is the list of its components below the root.  The model has no
    symbolic links, so [Path.resolve()] is the lexical normal form of the
    path taken from the working directory. *)
Abbreviation path := (list string).

Definition slash : ascii := "/".

(** Split a string at each [/]. *)
Fixpoint split_slash (l : list ascii) (cur : list ascii) : list string :=
  match l with
  | [] => [of_chars (rev cur)]
  | c :: l' =>
      if Ascii.eqb c slash then of_chars (rev cur) :: split_slash l' []
      else split_slash l' (c :: cur)
  end.

(** The parts [pathlib] keeps of a string: empty and [.] parts are dropped. *)
Definition parts (s : string) : list string :=
  filter (λ c, c ≠ "" ∧ c ≠ ".") (split_slash (chars s) []).

Definition is_absolute (s : string) : bool :=
  match s with
  | String c _ => Ascii.eqb c slash
  | EmptyString => false
  end.

(** Walk [ps] from [base]; [..] steps to the parent (the root is its own
    parent). *)
Fixpoint walk (base : path) (ps : list string) : path :=
  match ps with
  | [] => base
  | p :: ps' =>
      if String.eqb p ".." then walk (removelast base) ps'
      else walk (base ++ [p]) ps'
  end.

(** [base / s]: a relative [s] is appended, an absolute one replaces [base]. *)
Definition joinpath (base : path) (s : string) : path :=
  if is_absolute s then walk [] (parts s) else walk base (parts s).

(** [str(p)] for an absolute path. *)
Definition path_str (p : path) : string :=
  match p with
  | [] => "/"
  | _ => foldr (λ c acc, "/" +:+ c +:+ acc) "" p
  end.

(** One element of the argument vector: [list[str | Path]]. *)
Inductive arg : Type :=
| AStr (s : string)
| APath (p : path).

Global Instance arg_eq_dec : EqDecision arg.
Proof. solve_decision. Defined.

(* ===================================================================== *)
(** ** The argument builder of [rattler_build] *)
(* ===================================================================== *)

(** The keyword arguments of [rattler_build], with the types of the
    signature. *)
Record config : Type := {
  recipe : string;
  recipe_dir : option scalar;
  up_to : option string;
  build_platform : string;
  target_platform : option string;
  host_platform : string;
  channels : list string;
  variant_config : option string;      (* a [Path], by its string form *)
  verbose : Z;
  quiet : bool;
  ignore_recipe_variants : bool;
  log_style : string;
  render_only : bool;
  with_solve : bool;
  wrap_log_lines : option string;
  color : string;
  keep_build : bool;
  no_build_id : bool;
  compression_threads : option Z;
  experimental : bool;
  extra_meta : option (list (string * string));
  package_format : string;
  package_compression : option Z;
  no_include_recipe : bool;
  no_test : bool;
  test : string;
  color_build_log : bool;
  output_dir : string;
  skip_existing : string;
  noarch_build_platform : option string;
}.

(** The defaults of the signature. *)
Definition default_config : config := {|
  recipe := "."; recipe_dir := None; up_to := None;
  build_platform := "linux-64"; target_platform := None;
  host_platform := "linux-64"; channels := ["conda-forge"];
  variant_config := None; verbose := 0; quiet := false;
  ignore_recipe_variants := false; log_style := "fancy";
  render_only := false; with_solve := false; wrap_log_lines := None;
  color := "auto"; keep_build := false; no_build_id := false;
  compression_threads := None; experimental := false; extra_meta := None;
  package_format := "conda"; package_compression := None;
  no_include_recipe := false; no_test := false;
  test := "native-and-emulated"; color_build_log := false;
  output_dir := "./output"; skip_existing := "none";
  noarch_build_platform := None |}.

Section ArgumentBuilder.
Variable cwd : path.
Variable rattler_build_exec : path.
Variable c : config.

(** Lines 301-311. *)
Definition base_args : list arg :=
  [ APath rattler_build_exec; AStr "build";
    AStr "--recipe"; APath (joinpath cwd (recipe c));
    AStr "--build-platform"; AStr (build_platform c);
    AStr "--host-platform"; AStr (host_platform c);
    AStr "--log-style"; AStr (log_style c);
    AStr "--color"; AStr (color c);
    AStr "--test"; AStr (test c);
    AStr "--output-dir"; APath (joinpath cwd (output_dir c));
    AStr "--skip-existing"; AStr (skip_existing c) ].

(** Lines 315-316. *)
Definition channel_args : list arg :=
  flat_map (λ ch, [AStr "--channel"; AStr ch]) (channels c).

(** Line 318: one [--verbose] per level; [range] of a negative number is
    empty. *)
Definition verbose_args : list arg :=
  replicate (Z.to_nat (verbose c)) (AStr "--verbose").

(** Lines 324-338. *)
Definition boolean_values : list (bool * string) :=
  [ (quiet c, "--quiet");
    (ignore_recipe_variants c, "--ignore-recipe-variants");
    (render_only c, "--render-only");
    (with_solve c, "--with-solve");
    (keep_build c, "--keep_build");
    (no_build_id c, "--no-build-id");
    (experimental c, "--experimental");
    (no_include_recipe c, "--no-include-recipe");
    (color_build_log c, "--color-build-log") ].

Definition boolean_args : list arg :=
  flat_map (λ af : bool * string, if af.1 then [AStr af.2] else [])
           boolean_values.

(** Lines 341-347; the [DeprecationWarning] is not an error and leaves no
    trace in the argument vector. *)
Definition no_test_args : list arg :=
  if no_test c then [AStr "--no-test"] else [].

(** Lines 351-363. *)
Definition optional_values : list (option scalar * string) :=
  [ (recipe_dir c, "--recipe-dir");
    (SStr <$> up_to c, "--up-to");
    (SStr <$> target_platform c, "--target-platform");
    (SPath <$> variant_config c, "--variant-config");
    (SStr <$> wrap_log_lines c, "--wrap-log-lines");
    (SInt <$> compression_threads c, "--compression-threads");
    (SStr <$> noarch_build_platform c, "--noarch-build-platform") ].

Definition optional_arg (af : option scalar * string) : list arg :=
  match af.1 with
  | Some a => [AStr af.2; AStr (shlex_quote (py_str a))]
  | None => []
  end.

Definition optional_args : list arg := flat_map optional_arg optional_values.

(** Lines 366-368: [if extra_meta:] is false for [None] and for the empty
    dict alike. *)
Definition extra_meta_args : list arg :=
  match extra_meta c with
  | Some kv =>
      flat_map (λ e : string * string,
                  [AStr "--extra-meta"; AStr (shlex_quote (e.1 +:+ "=" +:+ e.2))]) kv
  | None => []
  end.

(** Lines 371-376. *)
Definition fmt : string :=
  match package_compression c with
  | Some level => package_format c +:+ ":" +:+ pretty level
  | None => package_format c
  end.

Definition format_args : list arg := [AStr "--package-format"; AStr fmt].

Definition build_args : list arg :=
  base_args ++ channel_args ++ verbose_args ++ boolean_args ++ no_test_args
  ++ optional_args ++ extra_meta_args ++ format_args.
End ArgumentBuilder.

(* ===================================================================== *)
(** ** The file system *)
(* ===================================================================== *)

(** What the module can observe of the disk: which absolute paths exist, and
    whether each is a directory or a regular file (with its text). *)
Inductive node : Type :=
| Dir
| File (content : string).

Global Instance node_eq_dec : EqDecision node.
Proof. solve_decision. Defined.

Abbreviation FS := (gmap path node).

(** [Path.is_dir()], [Path.is_file()] *)
Definition is_dir (fs : FS) (p : path) : bool :=
  match fs !! p with Some Dir => true | _ => false end.

Definition is_file (fs : FS) (p : path) : bool :=
  match fs !! p with Some (File _) => true | _ => false end.

Definition parent (p : path) : option path :=
  match p with
  | [] => None
  | _ => Some (removelast p)
  end.

(** The entries of a directory, as [Path.iterdir()] lists them. *)
Definition iterdir (fs : FS) (p : path) : FS :=
  filter (λ kv : path * node, parent kv.1 = Some p) fs.

(** [Path.unlink()] and [Path.rmdir()] remove one entry; [shutil.rmtree]
    removes the directory with everything below it. *)
Definition unlink (fs : FS) (p : path) : FS := delete p fs.
Definition rmdir (fs : FS) (p : path) : FS := delete p fs.
Definition rmtree (fs : FS) (p : path) : FS :=
  filter (λ kv : path * node, ¬ p `prefix_of` kv.1) fs.

(** *** Effects: a state monad over the file system, with exceptions

    A computation takes the file system and returns the file system it leaves
    behind together with its value or the exception it raised. *)
Definition M (A : Type) : Type := FS → FS * result A.

Definition ret {A} (a : A) : M A := λ fs, (fs, Ok a).
Definition raise {A} (e : exn) : M A := λ fs, (fs, Err e).
Definition bind {A B} (m : M A) (k : A → M B) : M B :=
  λ fs, match m fs with
        | (fs', Ok a) => k a fs'
        | (fs', Err e) => (fs', Err e)
        end.
Definition lift {A} (r : result A) : M A := λ fs, (fs, r).
Definition gets {A} (f : FS → A) : M A := λ fs, (fs, Ok (f fs)).
Definition modify (f : FS → FS) : M unit := λ fs, (f fs, Ok tt).
Definition when (b : bool) (m : M unit) : M unit := if b then m else ret tt.

Notation "'let!' x ':=' m 'in' k" := (bind m (λ x, k))
  (at level 10, x pattern, m at level 100, k at level 200, only parsing).
Notation "m ';;;' k" := (bind m (λ _, k))
  (at level 100, k at level 200, right associativity, only parsing).

(** A computation that only removes entries from the file system. *)
Definition shrinks {A} (m : M A) : Prop := ∀ fs, (m fs).1 ⊆ fs.

(** [_remove_empty_folder] *)
Definition _remove_empty_folder (folder : path) : M unit :=
  let! empty := gets (λ fs, is_dir fs folder
                            && bool_decide (iterdir fs folder = ∅)) in
  when empty (modify (λ fs, rmdir fs folder)).

(* ===================================================================== *)
(** ** [datetime]: parsing, the local time zone, POSIX timestamps *)
(* ===================================================================== *)

(** A naive [datetime] (no [tzinfo], [fold = 0]). *)
Record datetime : Type := {
  dt_year : Z; dt_month : Z; dt_day : Z;
  dt_hour : Z; dt_minute : Z; dt_second : Z; dt_microsecond : Z;
}.

Definition is_digit (c : ascii) : bool :=
  let n := nat_of_ascii c in ((48 <=? n) && (n <=? 57))%nat.

Definition digit_val (c : ascii) : Z := Z.of_nat (nat_of_ascii c) - 48.

(** [int(s)] for a string of decimal digits. *)
Definition int_of_digits (l : list ascii) : Z :=
  fold_left (λ acc c, 10 * acc + digit_val c) l 0.

(** The text before the first character satisfying [sep], and the text
    after it. *)
Fixpoint cut_at (sep : ascii → bool) (l : list ascii) (cur : list ascii)
    : option (list ascii * list ascii) :=
  match l with
  | [] => None
  | c :: l' => if sep c then Some (rev cur, l') else cut_at sep l' (c :: cur)
  end.

(** A field of one or two digits whose value lies in [lo..hi] (a two-digit
    form may start with [0]); [pad] allows a space in front of a single
    digit.  These are the regular expressions that [_strptime] builds for
    [%m], [%d], [%H], [%M] and [%S], each followed by its separator. *)
Definition field12 (lo hi : Z) (pad : bool) (l : list ascii) : option Z :=
  match l with
  | [a] => if is_digit a && (lo <=? digit_val a) then Some (digit_val a) else None
  | [a; b] =>
      if is_digit a && is_digit b then
        let v := 10 * digit_val a + digit_val b in
        if (lo <=? v) && (v <=? hi) then Some v else None
      else if pad && Ascii.eqb a " " && is_digit b && (1 <=? digit_val b)
      then Some (digit_val b) else None
  | _ => None
  end.

Definition field_year (l : list ascii) : option Z :=
  if Nat.eqb (length l) 4 && forallb is_digit l then Some (int_of_digits l) else None.

(** [%f]: one to six digits, padded with zeros on the right. *)
Definition field_fraction (l : list ascii) : option Z :=
  if (1 <=? length l)%nat && (length l <=? 6)%nat && forallb is_digit l
  then Some (int_of_digits l * 10 ^ Z.of_nat (6 - length l)) else None.

Definition is_char (x : ascii) (c : ascii) : bool := Ascii.eqb c x.
(** The format is compiled with [re.IGNORECASE]. *)
Definition is_letter (up low : ascii) (c : ascii) : bool :=
  Ascii.eqb c up || Ascii.eqb c low.

Definition is_leap (y : Z) : bool :=
  (y mod 4 =? 0) && (negb (y mod 100 =? 0) || (y mod 400 =? 0)).

Definition days_in_month (y m : Z) : Z :=
  if m =? 2 then (if is_leap y then 29 else 28)
  else if (m =? 4) || (m =? 6) || (m =? 9) || (m =? 11) then 30 else 31.

Definition no_match : exn := ValueError "time data does not match format".

Definition opt_field {A} (o : option A) : result A :=
  match o with Some a => Ok a | None => Err no_match end.

(** [datetime.strptime(s, "%Y-%m-%dT%H:%M:%S.%fZ")]: the match of the
    format, then the range checks of the [datetime] constructor. *)
Definition strptime (s : string) : result datetime :=
  rbind (opt_field (cut_at (is_char "-") (chars s) [])) (λ '(fy, r1),
  rbind (opt_field (field_year fy)) (λ y,
  rbind (opt_field (cut_at (is_char "-") r1 [])) (λ '(fm, r2),
  rbind (opt_field (field12 1 12 false fm)) (λ m,
  rbind (opt_field (cut_at (is_letter "T" "t") r2 [])) (λ '(fd, r3),
  rbind (opt_field (field12 1 31 true fd)) (λ d,
  rbind (opt_field (cut_at (is_char ":") r3 [])) (λ '(fH, r4),
  rbind (opt_field (field12 0 23 false fH)) (λ H,
  rbind (opt_field (cut_at (is_char ":") r4 [])) (λ '(fM, r5),
  rbind (opt_field (field12 0 59 false fM)) (λ Mi,
  rbind (opt_field (cut_at (is_char ".") r5 [])) (λ '(fS, r6),
  rbind (opt_field (field12 0 61 false fS)) (λ S,
  rbind (opt_field (cut_at (is_letter "Z" "z") r6 [])) (λ '(ff, r7),
  rbind (opt_field (field_fraction ff)) (λ f,
  match r7 with
  | _ :: _ => Err (ValueError "unconverted data remains")
  | [] =>
      if y <? 1 then Err (ValueError "year 0 is out of range")
      else if days_in_month y m <? d
      then Err (ValueError "day is out of range for month")
      else if 59 <? S then Err (ValueError "second must be in 0..59")
      else Ok {| dt_year := y; dt_month := m; dt_day := d; dt_hour := H;
                 dt_minute := Mi; dt_second := S; dt_microsecond := f |}
  end)))))))))))))).

(** [_days_before_year], [_days_before_month], [_ymd2ord] of [datetime.py]. *)
Definition days_before_year (y : Z) : Z :=
  let y1 := y - 1 in y1 * 365 + y1 / 4 - y1 / 100 + y1 / 400.

Definition days_before_month (y m : Z) : Z :=
  fold_left (λ acc k, acc + days_in_month y (Z.of_nat k))
            (seq 1 (Z.to_nat (m - 1))) 0.

Definition ymd2ord (y m d : Z) : Z :=
  days_before_year y + days_before_month y m + d.

(** Ordinal of 1970-01-01. *)
Definition epoch_ord : Z := 719163.

(** The wall-clock reading of a naive datetime in microseconds since
    1970-01-01T00:00:00 on the same clock; this is its POSIX time in
    microseconds when the reading is taken as UTC. *)
Definition wall_us (dt : datetime) : Z :=
  (((ymd2ord (dt_year dt) (dt_month dt) (dt_day dt) - epoch_ord) * 86400
    + dt_hour dt * 3600 + dt_minute dt * 60 + dt_second dt) * 1000000)
  + dt_microsecond dt.

(** [datetime.min] and [datetime.max] on that scale. *)
Definition min_us : Z := (1 - epoch_ord) * 86400 * 1000000.
Definition max_us : Z := (3652059 - epoch_ord + 1) * 86400 * 1000000 - 1.

(** Datetime arithmetic raises [OverflowError] outside years 1..9999. *)
Definition check_range (us : Z) : result Z :=
  if (min_us <=? us) && (us <=? max_us) then Ok us else Err OverflowError.

(** The system clock: [utcoffset u] is the offset from UTC, in seconds, that
    the system time zone has at the instant [u] ([tm_gmtoff] of
    [time.localtime(u)]); [now] is the instant of the call. *)
Record clock : Type := {
  utcoffset : Z → Z;
  now : Z;
}.

(** [datetime._mktime] with [fold = 0]: the POSIX time of a local wall-clock
    reading [t] (in seconds). *)
Definition mktime (k : clock) (t : Z) : Z :=
  let local u := u + utcoffset k u in
  let a := local t - t in
  let u1 := t - a in
  let t1 := local u1 in
  let b := if t1 =? t then (let u2 := u1 - 86400 in local u2 - u2)
           else t1 - u1 in
  if (t1 =? t) && (a =? b) then u1
  else
    let u2 := t - b in
    let t2 := local u2 in
    if t2 =? t then u2
    else if t1 =? t then u1
    else Z.max u1 u2.

(** [timezone(timedelta(seconds=off))] *)
Definition fixed_tz (off : Z) : result Z :=
  if (-86400 <? off) && (off <? 86400) then Ok off
  else Err (ValueError "offset must be a timedelta strictly between -timedelta(hours=24) and timedelta(hours=24)").


(** *** binary64 division and truncation

    [timedelta.total_seconds] divides two integers with [/]: the result is
    the binary64 number nearest to the quotient (ties to even), and [int]
    drops its fractional part.  A positive finite binary64 number is kept as
    [m * 2^e]. *)
Definition rne_div (n d : Z) : Z :=
  let q := n / d in
  let r := n mod d in
  if 2 * r <? d then q
  else if d <? 2 * r then q + 1
  else if Z.even q then q else q + 1.

Definition scaled_rne (n d e : Z) : Z :=
  if 0 <=? e then rne_div n (d * 2 ^ e) else rne_div (n * 2 ^ (- e)) d.

(** [floor(log2(n / d))] for positive [n], [d]. *)
Definition ratio_log2 (n d : Z) : Z :=
  let l := Z.log2 n - Z.log2 d in
  let ge := if 0 <=? l then d * 2 ^ l <=? n else d <=? n * 2 ^ (- l) in
  if ge then l else l - 1.

Definition b64_div (n d : Z) : Z * Z :=
  let e := Z.max (ratio_log2 n d - 52) (-1074) in
  (scaled_rne n d e, e).

Definition b64_trunc (x : Z * Z) : Z :=
  if 0 <=? x.2 then x.1 * 2 ^ x.2 else x.1 / 2 ^ (- x.2).

(** [int(td.total_seconds())] for a [timedelta] of [us] microseconds. *)
Definition int_total_seconds (us : Z) : Z :=
  if us =? 0 then 0
  else if 0 <? us then b64_trunc (b64_div us 1000000)
  else - b64_trunc (b64_div (- us) 1000000).

Section LocalTimestamp.
Variable k : clock.

(** [_get_local_ts], on the value found under ["timestamp"].

    - a [str] is parsed by [strptime] into a naive datetime;
    - [local_tz] is the fixed offset the system zone has now;
    - [astimezone] on a naive datetime reads it as system local time
      ([_local_timezone] through [_mktime]), subtracts that offset and
      adds the offset of [local_tz];
    - [fromutc] adds the offset of [local_tz] once more, and [timestamp]
      subtracts it. *)
Definition _get_local_ts (iso_dt : json) : result Z :=
  rbind (match iso_dt with
         | JStr s => strptime s
         | _ => Err AttributeError
         end) (λ dt,
  let w := wall_us dt in
  rbind (fixed_tz (utcoffset k (now k))) (λ local_off,
  rbind (fixed_tz (utcoffset k (mktime k (w / 1000000)))) (λ my_off,
  rbind (check_range (w - my_off * 1000000)) (λ utc,
  rbind (check_range (utc + local_off * 1000000)) (λ updated_dt,
  rbind (check_range (updated_dt + local_off * 1000000)) (λ shifted,
  Ok (int_total_seconds (shifted - local_off * 1000000)))))))).
End LocalTimestamp.

(* ===================================================================== *)
(** ** The reconciler: [_clean_output] *)
(* ===================================================================== *)

(** [list[i]] for a non-negative index, [list[-1]]. *)
Definition list_get {A} (l : list A) (i : nat) : result A :=
  match l !! i with Some a => Ok a | None => Err IndexError end.

Definition list_last {A} (l : list A) : result A :=
  match last l with Some a => Ok a | None => Err IndexError end.

(** [_get_msg] *)
Definition _get_msg (log_line : json) : result json :=
  rbind (getitem log_line "fields") (λ fields, getitem fields "message").

(** [msg == text] for a JSON value and a [str]. *)
Definition json_is_str (v : json) (text : string) : bool :=
  match v with JStr s => String.eqb s text | _ => false end.

(** Lines 123-125: [next] on the generator over [logs[2:]]. *)
Fixpoint next_src_msg (lines : list json) : result string :=
  match lines with
  | [] => Err StopIteration
  | line :: rest =>
      rbind (_get_msg line) (λ m,
      rbind (as_str m) (λ msg,
      if startswith msg SRC_PREFIX then Ok msg else next_src_msg rest))
  end.

(** *** [Path.rglob]

    The pattern is split into its parts and [**] is put in front; each part
    becomes a selector ([pathlib._make_selector]):
    - [**] visits the directory it is given and every directory below it;
    - a part with [*], [?] or [[] is matched by [fnmatch] against the names
      of the entries of the directory;
    - any other part names an entry literally; [..] is such a part, and
      names the parent;
    - a part that holds [**] and more is refused.
    A part other than the last is followed into directories only.  A
    selector keeps two paths: where it is on the disk, and the path as the
    result shows it ([out/a/../p.conda] for the entry [out/p.conda]). *)

(** [_is_wildcard_pattern] *)
Definition has_magic (pat : string) : bool :=
  existsb (λ c, ascii_in c "*?[") (chars pat).

(** ['**' in pat] *)
Fixpoint has_double_star (l : list ascii) : bool :=
  match l with
  | [] => false
  | a :: l' =>
      match l' with
      | [] => false
      | b :: _ => (Ascii.eqb a "*" && Ascii.eqb b "*") || has_double_star l'
      end
  end.

Definition invalid_part (pat : string) : bool :=
  negb (String.eqb pat "**") && has_double_star (chars pat).

(** The pattern ends with a separator: its last part must be a directory. *)
Definition ends_with_slash (pattern : string) : bool :=
  match last (chars pattern) with
  | Some c => Ascii.eqb c slash
  | None => false
  end.

(** The names of the entries of a directory ([os.scandir]). *)
Definition scandir (fs : FS) (here : path) : list string :=
  omap (λ k, if bool_decide (parent k = Some here) then last k else None)
       (map_to_list fs).*1.

(** [_iterate_directories]: the directory and the directories below it, each
    with the path it is shown under. *)
Definition iterate_directories (fs : FS) (here shown : path)
    : list (path * path) :=
  (here, shown)
  :: omap (λ kv : path * node,
             match kv.2 with
             | Dir =>
                 if bool_decide (here `prefix_of` kv.1 ∧ kv.1 ≠ here)
                 then Some (kv.1, shown ++ drop (length here) kv.1)
                 else None
             | File _ => None
             end) (map_to_list fs).

(** Where a literal part leads. *)
Definition step (here : path) (part : string) : path :=
  if String.eqb part ".." then removelast here else here ++ [part].

(** What the build leaves behind for the cleaner, computed from the log
    (the local variables of lines 99-115). *)
Record session : Type := {
  s_out : path;
  s_variant : string;
  s_bld_dir : path;
  s_not_skipped : bool;
}.

Definition mismatch : exn :=
  ValueError "bld dir exists but it shouldnt or vice versa".

Definition repr_paths (l : list path) : string :=
  "[" +:+ String.concat ", " (map (λ p, "PosixPath('" +:+ path_str p +:+ "')") l)
  +:+ "]".

Section Reconciler.
(** The working directory and the clock of the process. *)
Variable cwd : path.
Variable clk : clock.
(** What [ruamel.yaml] finds under [package.name] in the text of a recipe
    (as the f-string renders it), or the exception of the load. *)
Variable yaml_package_name : string → result string.
(** [fnmatch] on one path component: name, then pattern. *)
Variable fnmatch : string → string → bool.

(** [_get_package_name] *)
Definition _get_package_name (fs : FS) (recipe : path) : result string :=
  match fs !! (recipe ++ ["recipe.yaml"]) with
  | Some (File text) => yaml_package_name text
  | Some Dir => Err IsADirectoryError
  | None => Err (FileNotFoundError "recipe.yaml")
  end.

(** [_select_from] of the selectors made for [pats], started at the place
    [at_.1] shown as [at_.2]; [last_dironly] says that the last part must be a
    directory.  The recursive selector drops the paths it has yielded
    already. *)
Fixpoint select_from (fs : FS) (pats : list string) (last_dironly : bool)
    (at_ : path * path) : list path :=
  match pats with
  | [] => [at_.2]
  | pat :: rest =>
      let dironly := match rest with [] => last_dironly | _ => true end in
      if String.eqb pat "**" then
        remove_dups (flat_map (select_from fs rest last_dironly)
                              (iterate_directories fs at_.1 at_.2))
      else if has_magic pat then
        flat_map (λ name, select_from fs rest last_dironly
                            (at_.1 ++ [name], at_.2 ++ [name]))
                 (filter (λ name, (negb dironly || is_dir fs (at_.1 ++ [name]))
                                  && fnmatch name pat = true)
                         (scandir fs at_.1))
      else
        let here := step at_.1 pat in
        if (if dironly then is_dir fs here
            else bool_decide (is_Some (fs !! here)))
        then select_from fs rest last_dironly (here, at_.2 ++ [pat])
        else []
  end.

Definition invalid_pattern : exn :=
  ValueError "Invalid pattern: '**' can only be an entire path component".

Definition rglob (out : path) (pattern : string) : M (list path) :=
  if is_absolute pattern then raise NotImplementedError
  else if existsb invalid_part (parts pattern) then raise invalid_pattern
  else gets (λ fs, if is_dir fs out
                   then select_from fs ("**" :: parts pattern)
                                    (ends_with_slash pattern) (out, out)
                   else []).

(** Lines 99-115. *)
Definition derive_session (recipe output_dir : string) (skip_existing : pyval)
    (logs : list json) (fs : FS) : result session :=
  let recipe := joinpath cwd recipe in
  let output_dir := joinpath cwd output_dir in
  rbind (list_get logs 1) (λ variant_line,
  rbind (_get_package_name fs recipe) (λ package,
  rbind (getitem variant_line "timestamp") (λ ts,
  rbind (_get_local_ts clk ts) (λ timestamp,
  rbind (_get_msg variant_line) (λ m,
  rbind (as_str m) (λ vmsg,
  let variant := removeprefix vmsg BLD_PREFIX in
  let bld_dir :=
    joinpath (joinpath output_dir "bld")
             ("rattler-build_" +:+ package +:+ "_" +:+ pretty timestamp) in
  rbind (if truthy skip_existing
         then rbind (list_last logs) (λ l,
              rbind (_get_msg l) (λ msg,
              Ok (negb (json_is_str msg ("Skipping build for " +:+ variant)))))
         else Ok true) (λ not_skipped,
  Ok {| s_out := output_dir; s_variant := variant; s_bld_dir := bld_dir;
        s_not_skipped := not_skipped |}))))))).

(** Lines 122-136. *)
Definition clean_source (logs : list json) (clean_src_cache : bool) : M unit :=
  let! src_msg := lift (next_src_msg (drop 2 logs)) in
  let! tokens := lift (shlex_split (removeprefix src_msg SRC_PREFIX)) in
  match tokens with
  | [] => raise (ValueError "not enough values to unpack (expected at least 1, got 0)")
  | src_file_str :: _ =>
      let src_file := joinpath cwd src_file_str in
      let! is_f := gets (λ fs, is_file fs src_file) in
      if negb is_f then raise (RuntimeError "should not happen")
      else when clean_src_cache (modify (λ fs, unlink fs src_file))
  end.

(** Lines 149-161. *)
Definition locate_package (output_dir : path) (variant package_format : string)
    : M path :=
  let! ext :=
    (if String.eqb package_format "tar-bz2" then ret ".tar.bz2"
     else if String.eqb package_format "conda" then ret ".conda"
     else raise (ValueError ("Unknown package-format: " +:+ package_format))) in
  let! matches := rglob output_dir (variant +:+ ext) in
  match matches with
  | [match_] => ret match_
  | _ => raise (RuntimeError ("none or multiple output packages found: "
                              +:+ repr_paths matches))
  end.

(** Lines 122-161: the deletions, then the search for the package. *)
Definition cleaning (s : session) (package_format : string)
    (logs : list json) (bld_dir_exists clean_bld_cache clean_src_cache : bool)
    : M path :=
  let output_dir := s_out s in
  let bld_dir := s_bld_dir s in
  when (s_not_skipped s) (clean_source logs clean_src_cache) ;;;
  when clean_src_cache (_remove_empty_folder (joinpath output_dir "src_cache")) ;;;
  when clean_bld_cache
    (when bld_dir_exists (modify (λ fs, rmtree fs bld_dir)) ;;;
     _remove_empty_folder (joinpath output_dir "bld")) ;;;
  locate_package output_dir (s_variant s) package_format.

Definition _clean_output (recipe output_dir package_format : string)
    (skip_existing : pyval) (logs : list json)
    (clean_bld_cache clean_src_cache : bool) : M path :=
  let! s := (λ fs, (fs, derive_session recipe output_dir skip_existing logs fs)) in
  let! bld_dir_exists := gets (λ fs, is_dir fs (s_bld_dir s)) in
  if negb (Bool.eqb bld_dir_exists (s_not_skipped s)) then raise mismatch
  else cleaning s package_format logs bld_dir_exists
                clean_bld_cache clean_src_cache.
End Reconciler.

(* ===================================================================== *)
(** ** The process runner and the optimized driver *)
(* ===================================================================== *)

(** [repr(key)], for the message of a [KeyError]. *)
Definition pyval_repr (v : pyval) : string :=
  match v with
  | PBool true => "True"
  | PBool false => "False"
  | PStr s => "'" +:+ s +:+ "'"
  end.

(** [d[key]] on a dict literal with [bool] and [str] keys. *)
Fixpoint dict_get (d : list (pyval * string)) (key : pyval) : result string :=
  match d with
  | [] => Err (KeyError (pyval_repr key))
  | (k, v) :: d' => if decide (k = key) then Ok v else dict_get d' key
  end.

(** Lines 458-465. *)
Definition test_map : list (pyval * string) :=
  [ (PBool false, "skip"); (PStr "native", "native");
    (PBool true, "native-and-emulated") ].

Definition skip_existing_map : list (pyval * string) :=
  [ (PBool false, "none"); (PBool true, "local"); (PStr "all", "all") ].

(** The keyword arguments of [optimized_rattler_build]. *)
Record opt_config : Type := {
  o_recipe : string;
  o_output_dir : string;
  o_clean_bld_cache : bool;
  o_clean_src_cache : bool;
  o_run_conda_index : bool;
  o_check : bool;
  o_build_platform : string;
  o_target_platform : option string;
  o_host_platform : string;
  o_channels : list string;
  o_keep_build : bool;
  o_compression_threads : Z;
  o_experimental : bool;
  o_extra_meta : option (list (string * string));
  o_package_format : string;
  o_package_compression : option Z;
  o_no_include_recipe : bool;
  o_test : pyval;
  o_skip_existing : pyval;
  o_noarch_build_platform : option string;
}.

(** The call of lines 466-487, once the two tables have been consulted. *)
Definition delegated (o : opt_config) (test' skip_existing' : string) : config := {|
  recipe := o_recipe o; recipe_dir := None; up_to := None;
  build_platform := o_build_platform o;
  target_platform := o_target_platform o;
  host_platform := o_host_platform o;
  channels := o_channels o;
  variant_config := None; verbose := 0; quiet := false;
  ignore_recipe_variants := true; log_style := "json";
  render_only := false; with_solve := false;
  wrap_log_lines := Some "false"; color := "never";
  keep_build := o_keep_build o; no_build_id := false;
  compression_threads := Some (o_compression_threads o);
  experimental := o_experimental o; extra_meta := o_extra_meta o;
  package_format := o_package_format o;
  package_compression := o_package_compression o;
  no_include_recipe := o_no_include_recipe o; no_test := false;
  test := test'; color_build_log := false;
  output_dir := o_output_dir o; skip_existing := skip_existing';
  noarch_build_platform := o_noarch_build_platform o |}.

Definition translate (o : opt_config) : result config :=
  rbind (dict_get test_map (o_test o)) (λ t,
  rbind (dict_get skip_existing_map (o_skip_existing o)) (λ s,
  Ok (delegated o t s))).

Definition newline : string := String "010" EmptyString.

Section Driver.
Variable cwd : path.
Variable clk : clock.
Variable yaml_package_name : string → result string.
Variable fnmatch : string → string → bool.
(** The value of [CONDA_PREFIX] in the environment. *)
Variable conda_prefix : option string.
(** [subprocess.Popen(args, ...).communicate()]: the build itself, which
    returns the two captured streams and the exit code. *)
Variable popen : list arg → M (string * string * Z).
(** [[json.loads(line) for line in stderr.splitlines()]] *)
Variable parse_logs : string → result (list json).
(** [json.dumps] *)
Variable json_dumps : json → string.
(** The name [tempfile] picks for a new temporary file. *)
Variable mktemp : FS → path.
(** [conda_index.api.update_index], when the package can be imported. *)
Variable conda_index : option (string → M unit).

(** [rattler_build], lines 292-390. *)
Definition rattler_build (c : config) : M (list json * Z) :=
  match conda_prefix with
  | None | Some EmptyString => raise (FileNotFoundError "No conda prefix found.")
  | Some prefix =>
      let rattler_build_exec :=
        joinpath (joinpath (joinpath cwd prefix) "bin") "rattler-build" in
      let! found := gets (λ fs, is_file fs rattler_build_exec) in
      if negb found then raise (FileNotFoundError "rattler-build not found.")
      else
        let! out := popen (build_args cwd rattler_build_exec c) in
        let '(stdout, stderr, returncode) := out in
        if negb (String.eqb stdout "") then raise (RuntimeError "stdout should be empty")
        else
          let! logs := lift (parse_logs stderr) in
          ret (logs, returncode)
  end.

(** [_dump_jsonl], as the text it writes. *)
Definition _dump_jsonl (data : list json) : string :=
  String.concat "" (map (λ line, json_dumps line +:+ newline) data).

(** Lines 515-516: [with tempfile.NamedTemporaryFile("w") as f:] creates
    the file, the body writes [text] to it, and leaving the block closes
    the file, which removes it ([delete=True] is the default).  The value
    is [f.name]. *)
Definition with_named_temporary_file (text : string) : M path :=
  let! name := gets mktemp in
  let! taken := gets (λ fs, bool_decide (is_Some (fs !! name))) in
  if taken then raise FileExistsError
  else
    modify (λ fs, <[name := File ""]> fs) ;;;
    modify (λ fs, <[name := File text]> fs) ;;;
    modify (λ fs, unlink fs name) ;;;
    ret name.

(** [optimized_rattler_build], lines 458-518. *)
Definition optimized_rattler_build (o : opt_config)
    : M (option path * list json * Z) :=
  let! c := lift (translate o) in
  let! built := rattler_build c in
  let '(logs, code) := built in
  if code =? 0 then
    let! pkg := _clean_output cwd clk yaml_package_name fnmatch
                  (o_recipe o) (o_output_dir o) (o_package_format o)
                  (o_skip_existing o) logs
                  (o_clean_bld_cache o) (o_clean_src_cache o) in
    when (o_run_conda_index o)
      (match conda_index with
       | Some update_index => update_index (o_output_dir o)
       | None => ret tt
       end) ;;;
    ret (Some pkg, logs, code)
  else if o_check o then
    let! name := with_named_temporary_file (_dump_jsonl logs) in
    raise (RuntimeError ("rattler-build failed. logs written to: " +:+ path_str name))
  else ret (None, logs, code).
End Driver.

(* ===================================================================== *)
(** ** Reading an argument vector back *)
(* ===================================================================== *)

(** The options of [rattler-build build] that are followed by a value (the
    flags of lines 301-311, 316, 351-359, 368 and 376); every other flag
    stands alone. *)
Definition valued_flags : list string :=
  [ "--recipe"; "--build-platform"; "--host-platform"; "--log-style";
    "--color"; "--test"; "--output-dir"; "--skip-existing"; "--channel";
    "--recipe-dir"; "--up-to"; "--target-platform"; "--variant-config";
    "--wrap-log-lines"; "--compression-threads"; "--noarch-build-platform";
    "--extra-meta"; "--package-format" ].

Definition takes_value (f : string) : bool := bool_decide (f ∈ valued_flags).

(** The vector after the program and the subcommand, read from the left as
    the executable does: a flag that takes a value consumes the next
    element, whatever its text. *)
Fixpoint read_cli (l : list arg) : list (string * option arg) :=
  match l with
  | [] => []
  | AStr f :: rest =>
      if takes_value f then
        match rest with
        | v :: rest' => (f, Some v) :: read_cli rest'
        | [] => [(f, None)]
        end
      else (f, None) :: read_cli rest
  | APath p :: rest => ("", Some (APath p)) :: read_cli rest
  end.

(** The values with which flag [f] occurs, in order; [None] for a bare
    occurrence. *)
Definition flag_values (f : string) (units : list (string * option arg))
    : list (option arg) :=
  (filter (λ u : string * option arg, u.1 = f) units).*2.

(** [vals] when [g] is the flag [f] asked for, nothing otherwise. *)
Definition only (f g : string) (vals : list (option arg)) : list (option arg) :=
  if String.eqb g f then vals else [].

(** The options as the executable sees them. *)
Definition seen (cwd exec : path) (c : config) : list (string * option arg) :=
  read_cli (drop 2 (build_args cwd exec c)).

(* ===================================================================== *)
(** ** Vocabulary of the statements *)
(* ===================================================================== *)


(** A string without [/]. *)
Definition slash_free (s : string) : bool :=
  forallb (λ c, negb (Ascii.eqb c slash)) (chars s).

(** The value token the builder emits (line 363). *)
Definition optional_token (a : scalar) : string := shlex_quote (py_str a).

(** *** The specification's wording, where it differs from the code *)

(** The value token of an optional scalar as section 4.1 of the
    specification words it: shell-quoted when the option is string-valued,
    its plain string form otherwise. *)
Definition spec_optional_token (a : scalar) : string :=
  if is_str a then shlex_quote (py_str a) else py_str a.

(** "[skip flag == true] iff the build directory exists", the consistency
    condition as section 3 of the specification words it. *)
Definition spec_consistent (skip_flag bld_dir_exists : bool) : bool :=
  Bool.eqb skip_flag bld_dir_exists.

(* ===================================================================== *)
(** ** Sample inputs *)
(* ===================================================================== *)

(** *** Configurations *)

Definition with_format (c : config) (format : string) (level : option Z) : config := {|
  recipe := recipe c; recipe_dir := recipe_dir c; up_to := up_to c;
  build_platform := build_platform c; target_platform := target_platform c;
  host_platform := host_platform c; channels := channels c;
  variant_config := variant_config c; verbose := verbose c; quiet := quiet c;
  ignore_recipe_variants := ignore_recipe_variants c; log_style := log_style c;
  render_only := render_only c; with_solve := with_solve c;
  wrap_log_lines := wrap_log_lines c; color := color c;
  keep_build := keep_build c; no_build_id := no_build_id c;
  compression_threads := compression_threads c; experimental := experimental c;
  extra_meta := extra_meta c;
  package_format := format; package_compression := level;
  no_include_recipe := no_include_recipe c; no_test := no_test c;
  test := test c; color_build_log := color_build_log c;
  output_dir := output_dir c; skip_existing := skip_existing c;
  noarch_build_platform := noarch_build_platform c |}.

Definition with_variant_config (c : config) (v : option string) : config := {|
  recipe := recipe c; recipe_dir := recipe_dir c; up_to := up_to c;
  build_platform := build_platform c; target_platform := target_platform c;
  host_platform := host_platform c; channels := channels c;
  variant_config := v; verbose := verbose c; quiet := quiet c;
  ignore_recipe_variants := ignore_recipe_variants c; log_style := log_style c;
  render_only := render_only c; with_solve := with_solve c;
  wrap_log_lines := wrap_log_lines c; color := color c;
  keep_build := keep_build c; no_build_id := no_build_id c;
  compression_threads := compression_threads c; experimental := experimental c;
  extra_meta := extra_meta c;
  package_format := package_format c;
  package_compression := package_compression c;
  no_include_recipe := no_include_recipe c; no_test := no_test c;
  test := test c; color_build_log := color_build_log c;
  output_dir := output_dir c; skip_existing := skip_existing c;
  noarch_build_platform := noarch_build_platform c |}.

Definition with_modes (o : opt_config) (test_ skip_existing_ : pyval) : opt_config := {|
  o_recipe := o_recipe o; o_output_dir := o_output_dir o;
  o_clean_bld_cache := o_clean_bld_cache o;
  o_clean_src_cache := o_clean_src_cache o;
  o_run_conda_index := o_run_conda_index o; o_check := o_check o;
  o_build_platform := o_build_platform o;
  o_target_platform := o_target_platform o;
  o_host_platform := o_host_platform o; o_channels := o_channels o;
  o_keep_build := o_keep_build o;
  o_compression_threads := o_compression_threads o;
  o_experimental := o_experimental o; o_extra_meta := o_extra_meta o;
  o_package_format := o_package_format o;
  o_package_compression := o_package_compression o;
  o_no_include_recipe := o_no_include_recipe o;
  o_test := test_; o_skip_existing := skip_existing_;
  o_noarch_build_platform := o_noarch_build_platform o |}.

(** The defaults of [optimized_rattler_build], for a recipe in [/work/recipe]
    and the output directory [/work/out]; [check] is a parameter. *)
Definition sample_opt (check : bool) : opt_config := {|
  o_recipe := "/work/recipe"; o_output_dir := "/work/out";
  o_clean_bld_cache := true; o_clean_src_cache := true;
  o_run_conda_index := true; o_check := check;
  o_build_platform := "linux-64"; o_target_platform := None;
  o_host_platform := "linux-64"; o_channels := ["conda-forge"];
  o_keep_build := false; o_compression_threads := 0;
  o_experimental := false; o_extra_meta := None;
  o_package_format := "conda"; o_package_compression := None;
  o_no_include_recipe := true;
  o_test := PBool true; o_skip_existing := PBool true;
  o_noarch_build_platform := None |}.

(** *** A build, its log and its disk *)

(** A build of [mypkg] in [/work]: the log of a successful run and the disk
    it leaves behind. *)
Definition event (timestamp message : string) : json :=
  JDict [ ("timestamp", JStr timestamp);
          ("fields", JDict [("message", JStr message)]) ].

Definition built_logs : list json :=
  [ event "2024-01-15T10:29:59.900000Z" "Found 1 variants";
    event "2024-01-15T10:30:00.123456Z" "Build variant: mypkg-1.0-py_0";
    event "2024-01-15T10:30:01.000000Z"
          "Copying source from url: /work/out/src_cache/mypkg-1.0.tar.gz to /work/out/bld/src";
    event "2024-01-15T10:30:09.000000Z" "Packaging done" ].

Definition skipped_logs : list json :=
  [ event "2024-01-15T10:29:59.900000Z" "Found 1 variants";
    event "2024-01-15T10:30:00.123456Z" "Build variant: mypkg-1.0-py_0";
    event "2024-01-15T10:30:00.500000Z" "Skipping build for mypkg-1.0-py_0" ].

Definition work : path := ["work"].
Definition out_dir : path := ["work"; "out"].
Definition bld_dir_1705314600 : path :=
  ["work"; "out"; "bld"; "rattler-build_mypkg_1705314600"].
Definition src_file : path := ["work"; "out"; "src_cache"; "mypkg-1.0.tar.gz"].
Definition package_file : path :=
  ["work"; "out"; "linux-64"; "mypkg-1.0-py_0.conda"].

(** The output directory once the package exists and the caches are gone. *)
Definition fs_cleaned : FS :=
  {[ ["work"] := Dir;
     ["work"; "recipe"] := Dir;
     ["work"; "recipe"; "recipe.yaml"] := File "package: {name: mypkg}";
     out_dir := Dir;
     ["work"; "out"; "linux-64"] := Dir;
     package_file := File "" ]}.

(** The same with the build directory and the source cache still there. *)
Definition fs_built : FS :=
  <[ ["work"; "out"; "bld"] := Dir ]>
  (<[ bld_dir_1705314600 := Dir ]>
  (<[ bld_dir_1705314600 ++ ["work"] := Dir ]>
  (<[ bld_dir_1705314600 ++ ["work"; "build.sh"] := File "" ]>
  (<[ ["work"; "out"; "src_cache"] := Dir ]>
  (<[ src_file := File "" ]> fs_cleaned))))).

Definition utc_clock : clock := {| utcoffset := λ _, 0; now := 1705314700 |}.
Definition yaml_mypkg : string → result string := λ _, Ok "mypkg".
Definition no_fnmatch : string → string → bool := λ _ _, false.

Definition sample_clean (skip : pyval) (logs : list json)
    (clean_bld clean_src : bool) : M path :=
  _clean_output work utc_clock yaml_mypkg no_fnmatch
    "/work/recipe" "/work/out" "conda" skip logs clean_bld clean_src.

(** The log of a build that announced no source copy. *)
Definition sourceless_logs : list json :=
  [ event "2024-01-15T10:29:59.900000Z" "Found 1 variants";
    event "2024-01-15T10:30:00.123456Z" "Build variant: mypkg-1.0-py_0";
    event "2024-01-15T10:30:09.000000Z" "Packaging done" ].

(** The session of the sample build, and of the same build skipped. *)
Definition session_skipped : session := {|
  s_out := ["work"; "out"]; s_variant := "mypkg-1.0-py_0";
  s_bld_dir := ["work"; "out"; "bld"; "rattler-build_mypkg_1705314600"];
  s_not_skipped := false |}.

Definition session_built : session := {|
  s_out := out_dir; s_variant := "mypkg-1.0-py_0";
  s_bld_dir := bld_dir_1705314600; s_not_skipped := true |}.

(** *** A failed build *)

(** A failed build: the executable is installed under [/opt/conda], writes
    two events to its error stream and exits with code 1. *)
Definition failed_logs : list json :=
  [ event "2024-01-15T10:29:59.900000Z" "Found 1 variants";
    event "2024-01-15T10:30:00.123456Z" "Build variant: mypkg-1.0-py_0" ].

Definition exec_file : path := ["opt"; "conda"; "bin"; "rattler-build"].
Definition tmp_file : path := ["tmp"; "tmpk3x9q2mz"].

Definition fs_failed : FS :=
  <[ ["opt"] := Dir ]> (<[ ["opt"; "conda"] := Dir ]>
  (<[ ["opt"; "conda"; "bin"] := Dir ]> (<[ exec_file := File "" ]>
  (<[ ["tmp"] := Dir ]> fs_built)))).

Definition failing_popen : list arg → M (string * string * Z) :=
  λ _, ret ("", "two lines of JSON", 1).
Definition failed_parse : string → result (list json) := λ _, Ok failed_logs.
Definition braces_dumps : json → string := λ _, "{}".
Definition fixed_mktemp : FS → path := λ _, tmp_file.

Definition sample_driver (check : bool) : M (option path * list json * Z) :=
  optimized_rattler_build work utc_clock yaml_mypkg no_fnmatch
    (Some "/opt/conda") failing_popen failed_parse braces_dumps fixed_mktemp
    None (sample_opt check).

(** *** Clocks *)

(** A zone with daylight saving time, Europe/Berlin in 2024: one hour ahead
    of UTC until 2024-03-31T01:00Z and after 2024-10-27T01:00Z, two hours
    ahead in between.  [n] is the instant of the call. *)
Definition berlin (n : Z) : clock := {|
  utcoffset := λ u, if (1711846800 <=? u) && (u <? 1729990800) then 7200 else 3600;
  now := n |}.

(** 2024-01-15T10:31:40Z, an hour later, and 2024-07-01T12:00:00Z. *)
Definition in_january : Z := 1705314700.
Definition an_hour_later : Z := 1705318300.
Definition in_july : Z := 1719835200.

(** 2024-03-31T00:59:30Z and 2024-03-31T01:00:30Z, half a minute before and
    after the clocks in Berlin go forward. *)
Definition before_switch : Z := 1711846770.
Definition after_switch : Z := 1711846830.

Definition sample_timestamp : json := JStr "2024-01-15T10:30:00.123456Z".
Definition switch_timestamp : json := JStr "2024-03-31T00:59:00.000000Z".
(** A build logged at 2024-03-31T01:10:00Z, ten minutes after the clocks
    in Berlin went forward, and the disk it leaves: the build directory
    bears the seconds of that instant. *)
Definition late_timestamp : json := JStr "2024-03-31T01:10:00.000000Z".
Definition late_logs : list json :=
  [ event "2024-03-31T01:09:59.900000Z" "Found 1 variants";
    event "2024-03-31T01:10:00.000000Z" "Build variant: mypkg-1.0-py_0";
    event "2024-03-31T01:10:01.000000Z"
          "Copying source from url: /work/out/src_cache/mypkg-1.0.tar.gz to /work/out/bld/src";
    event "2024-03-31T01:10:09.000000Z" "Packaging done" ].
Definition fs_late : FS :=
  <[ ["work"; "out"; "bld"] := Dir ]>
  (<[ ["work"; "out"; "bld"; "rattler-build_mypkg_1711847400"] := Dir ]>
  (<[ ["work"; "out"; "src_cache"] := Dir ]>
  (<[ src_file := File "" ]> fs_cleaned))).
Definition late_datetime : datetime := {|
  dt_year := 2024; dt_month := 3; dt_day := 31;
  dt_hour := 1; dt_minute := 10; dt_second := 0; dt_microsecond := 0 |}.
Definition sample_datetime : datetime := {|
  dt_year := 2024; dt_month := 1; dt_day := 15;
  dt_hour := 10; dt_minute := 30; dt_second := 0; dt_microsecond := 123456 |}.

(** *** A tree to glob in *)

(** The directory [/t/out] with [p.conda], [a/p.conda], [a/b/q.conda] and the
    empty [c], next to [/t/p.conda]. *)
Definition glob_out : path := ["t"; "out"].

Definition fs_glob : FS :=
  {[ ["t"] := Dir; ["t"; "p.conda"] := File "";
     glob_out := Dir; glob_out ++ ["p.conda"] := File "";
     glob_out ++ ["a"] := Dir; glob_out ++ ["a"; "p.conda"] := File "";
     glob_out ++ ["a"; "b"] := Dir;
     glob_out ++ ["a"; "b"; "q.conda"] := File "";
     glob_out ++ ["c"] := Dir ]}.

(** [fnmatch] for the two wildcard parts of the examples. *)
Definition sample_fnmatch (name pat : string) : bool :=
  if String.eqb pat "*" then true
  else if String.eqb pat "*.conda"
  then bool_decide (rev (chars ".conda") `prefix_of` rev (chars name))
  else false.

(** The paths that [rglob] yields in that tree are those listed, in some
    order. *)
Definition globs (pattern : string) (expected : list path) : bool :=
  match (rglob sample_fnmatch glob_out pattern fs_glob).2 with
  | Ok found =>
      bool_decide (list_to_set found =@{gset path} list_to_set expected)
      && (length found =? length expected)%nat
  | Err _ => false
  end.


(* ===================================================================== *)
(** ** Further sample inputs *)
(* ===================================================================== *)

(** A build that succeeds: the executable writes the log of the sample
    build and exits with code 0.  [fs_failed] is also the disk such a build
    leaves behind; [fs_done] is that disk once the caches are cleaned. *)
Definition building_popen : list arg → M (string * string * Z) :=
  λ _, ret ("", "four lines of JSON", 0).
Definition built_parse : string → result (list json) := λ _, Ok built_logs.

Definition fs_done : FS :=
  <[ ["opt"] := Dir ]> (<[ ["opt"; "conda"] := Dir ]>
  (<[ ["opt"; "conda"; "bin"] := Dir ]> (<[ exec_file := File "" ]>
  (<[ ["tmp"] := Dir ]> fs_cleaned)))).

Definition sample_build (o : opt_config) : M (option path * list json * Z) :=
  optimized_rattler_build work utc_clock yaml_mypkg no_fnmatch
    (Some "/opt/conda") building_popen built_parse braces_dumps fixed_mktemp
    None o.

(** A recipe directory without its [recipe.yaml]. *)
Definition fs_no_recipe : FS :=
  {[ ["work"] := Dir; ["work"; "recipe"] := Dir; out_dir := Dir ]}.

(** The clock of the sample build an hour later. *)
Definition utc_clock_later : clock :=
  {| utcoffset := λ _, 0; now := an_hour_later |}.

(** The configuration the driver hands on for [sample_opt]. *)
Definition sample_delegated (check : bool) : config :=
  delegated (sample_opt check) "native-and-emulated" "local".

(* ===================================================================== *)
(** ** Further vocabulary *)
(* ===================================================================== *)

(** The path of the source file that the log announces (lines 123-127), when
    there is one. *)
Definition source_path (cwd : path) (logs : list json) : option path :=
  match next_src_msg (drop 2 logs) with
  | Ok msg =>
      match shlex_split (removeprefix msg SRC_PREFIX) with
      | Ok (src_file_str :: _) => Some (joinpath cwd src_file_str)
      | _ => None
      end
  | Err _ => None
  end.

(** The paths [_clean_output] is entitled to remove: with [clean_bld_cache]
    the build directory, all that lies below it and the [bld] folder; with
    [clean_src_cache] the [src_cache] folder and, when the build was not
    skipped, the announced source file. *)
Definition removable (cwd : path) (s : session) (logs : list json)
    (clean_bld_cache clean_src_cache : bool) (q : path) : Prop :=
  (clean_bld_cache = true
   ∧ (s_bld_dir s `prefix_of` q ∨ q = joinpath (s_out s) "bld"))
  ∨ (clean_src_cache = true
     ∧ (q = joinpath (s_out s) "src_cache"
        ∨ (s_not_skipped s = true ∧ source_path cwd logs = Some q))).

(** A computation that leaves every path outside [Q] as it is. *)
Definition preserves {A} (Q : path → Prop) (m : M A) : Prop :=
  ∀ fs q, ¬ Q q → (m fs).1 !! q = fs !! q.

(* ===================================================================== *)
(** * Properties *)
(* ===================================================================== *)

(** ** The argument builder *)

Lemma flag_values_app f l1 l2 :
  flag_values f (l1 ++ l2) = flag_values f l1 ++ flag_values f l2.
Proof. unfold flag_values. by rewrite filter_app, fmap_app. Qed.

Lemma flag_values_cons_ne f g v l :
  g ≠ f → flag_values f ((g, v) :: l) = flag_values f l.
Proof. intros. unfold flag_values. by rewrite filter_cons_False. Qed.

Lemma flag_values_cons_eq f v l :
  flag_values f ((f, v) :: l) = v :: flag_values f l.
Proof. unfold flag_values. by rewrite filter_cons_True. Qed.

Lemma read_cli_valued f v rest :
  takes_value f = true →
  read_cli (AStr f :: v :: rest) = (f, Some v) :: read_cli rest.
Proof. intros H. simpl. by rewrite H. Qed.

Lemma read_cli_bare f rest :
  takes_value f = false →
  read_cli (AStr f :: rest) = (f, None) :: read_cli rest.
Proof. intros H. simpl. by rewrite H. Qed.

Section Segments.
Variable f : string.

Lemma seen_channels chs rest :
  flag_values f (read_cli (flat_map (λ ch, [AStr "--channel"; AStr ch]) chs ++ rest))
  = (if decide ("--channel" = f) then (λ ch, Some (AStr ch)) <$> chs else [])
    ++ flag_values f (read_cli rest).
Proof.
  induction chs as [|ch chs IH]; [by case_decide|].
  cbn [flat_map app]. rewrite read_cli_valued by done.
  case_decide as Hf.
  - subst f. by rewrite flag_values_cons_eq, IH.
  - rewrite flag_values_cons_ne by done. by rewrite IH.
Qed.

Lemma seen_verbose n rest :
  flag_values f (read_cli (replicate n (AStr "--verbose") ++ rest))
  = (if decide ("--verbose" = f) then replicate n None else [])
    ++ flag_values f (read_cli rest).
Proof.
  induction n as [|n IH]; [by case_decide|].
  cbn [replicate app]. rewrite read_cli_bare by done.
  case_decide as Hf.
  - subst f. by rewrite flag_values_cons_eq, IH.
  - rewrite flag_values_cons_ne by done. by rewrite IH.
Qed.

Lemma seen_switch (b : bool) g rest :
  takes_value g = false →
  flag_values f (read_cli ((if b then [AStr g] else []) ++ rest))
  = (if decide (g = f) then (if b then [None] else []) else [])
    ++ flag_values f (read_cli rest).
Proof.
  intros Hg. destruct b; cbn [app]; [|by case_decide].
  rewrite read_cli_bare by done. case_decide as Hf.
  - subst f. by rewrite flag_values_cons_eq.
  - by rewrite flag_values_cons_ne.
Qed.

Lemma seen_optional (o : option scalar) g rest :
  takes_value g = true →
  flag_values f (read_cli (optional_arg (o, g) ++ rest))
  = (if decide (g = f)
     then match o with
          | Some a => [Some (AStr (shlex_quote (py_str a)))]
          | None => []
          end
     else [])
    ++ flag_values f (read_cli rest).
Proof.
  intros Hg. unfold optional_arg. destruct o as [a|]; cbn [fst snd app];
    [|by case_decide].
  rewrite read_cli_valued by done. case_decide as Hf.
  - subst f. by rewrite flag_values_cons_eq.
  - by rewrite flag_values_cons_ne.
Qed.

Lemma seen_extra_meta (kv : list (string * string)) rest :
  flag_values f
    (read_cli (flat_map (λ e : string * string,
                 [AStr "--extra-meta"; AStr (shlex_quote (e.1 +:+ "=" +:+ e.2))]) kv
               ++ rest))
  = (if decide ("--extra-meta" = f)
     then (λ e : string * string, Some (AStr (shlex_quote (e.1 +:+ "=" +:+ e.2)))) <$> kv
     else [])
    ++ flag_values f (read_cli rest).
Proof.
  induction kv as [|e kv IH]; [by case_decide|].
  cbn [flat_map app]. rewrite read_cli_valued by done.
  case_decide as Hf.
  - subst f. by rewrite flag_values_cons_eq, IH.
  - rewrite flag_values_cons_ne by done. by rewrite IH.
Qed.
End Segments.

Lemma only_decide f g vals :
  only f g vals = if decide (g = f) then vals else [].
Proof. unfold only. destruct (String.eqb_spec g f); by case_decide. Qed.

Lemma seen_valued f g v rest :
  takes_value g = true →
  flag_values f (read_cli (AStr g :: v :: rest))
  = only f g [Some v] ++ flag_values f (read_cli rest).
Proof.
  intros Hg. rewrite read_cli_valued, only_decide by done. case_decide as Hf.
  - subst f. by rewrite flag_values_cons_eq.
  - by rewrite flag_values_cons_ne.
Qed.

Lemma seen_flag_values f cwd exec c :
  flag_values f (seen cwd exec c)
  = only f "--recipe" [Some (APath (joinpath cwd (recipe c)))]
    ++ only f "--build-platform" [Some (AStr (build_platform c))]
    ++ only f "--host-platform" [Some (AStr (host_platform c))]
    ++ only f "--log-style" [Some (AStr (log_style c))]
    ++ only f "--color" [Some (AStr (color c))]
    ++ only f "--test" [Some (AStr (test c))]
    ++ only f "--output-dir" [Some (APath (joinpath cwd (output_dir c)))]
    ++ only f "--skip-existing" [Some (AStr (skip_existing c))]
    ++ only f "--channel" ((λ ch, Some (AStr ch)) <$> channels c)
    ++ only f "--verbose" (replicate (Z.to_nat (verbose c)) None)
    ++ flat_map (λ af : bool * string, only f af.2 (if af.1 then [None] else []))
                (boolean_values c)
    ++ only f "--no-test" (if no_test c then [None] else [])
    ++ flat_map (λ af : option scalar * string,
                   only f af.2 (match af.1 with
                                | Some a => [Some (AStr (shlex_quote (py_str a)))]
                                | None => []
                                end))
                (optional_values c)
    ++ only f "--extra-meta"
         (match extra_meta c with
          | Some kv => (λ e : string * string,
                          Some (AStr (shlex_quote (e.1 +:+ "=" +:+ e.2)))) <$> kv
          | None => []
          end)
    ++ only f "--package-format" [Some (AStr (fmt c))].
Proof.
  rewrite !only_decide.
  assert (∀ (l : list (bool * string)),
    flat_map (λ af : bool * string, only f af.2 (if af.1 then [None] else [])) l
    = flat_map (λ af : bool * string,
        if decide (af.2 = f) then (if af.1 then [None] else []) else []) l) as ->.
  { intros l. induction l as [|a l IH]; [done|]. cbn [flat_map].
    by rewrite only_decide, IH. }
  assert (∀ (l : list (option scalar * string)),
    flat_map (λ af : option scalar * string,
                only f af.2 (match af.1 with
                             | Some a => [Some (AStr (shlex_quote (py_str a)))]
                             | None => []
                             end)) l
    = flat_map (λ af : option scalar * string,
        if decide (af.2 = f)
        then match af.1 with
             | Some a => [Some (AStr (shlex_quote (py_str a)))]
             | None => []
             end
        else []) l) as ->.
  { intros l. induction l as [|a l IH]; [done|]. cbn [flat_map].
    by rewrite only_decide, IH. }
  unfold seen, build_args, base_args. cbn [app drop].
  rewrite !seen_valued, !only_decide by done.
  unfold channel_args. rewrite seen_channels.
  unfold verbose_args. rewrite seen_verbose.
  unfold boolean_args, boolean_values. cbn [flat_map fst snd].
  rewrite <- !app_assoc. repeat (rewrite seen_switch by done).
  cbn [app]. unfold no_test_args. rewrite seen_switch by done.
  unfold optional_args, optional_values. cbn [flat_map].
  rewrite <- !app_assoc. repeat (rewrite seen_optional by done).
  cbn [app fst snd].
  assert (flag_values f (read_cli (extra_meta_args c ++ format_args c))
          = (if decide ("--extra-meta" = f)
             then match extra_meta c with
                  | Some kv => (λ e : string * string,
                      Some (AStr (shlex_quote (e.1 +:+ "=" +:+ e.2)))) <$> kv
                  | None => []
                  end
             else [])
            ++ (if decide ("--package-format" = f)
                then [Some (AStr (fmt c))] else [])) as ->.
  { unfold extra_meta_args, format_args.
    assert (flag_values f (read_cli []) = []) as Hnil by done.
    destruct (extra_meta c) as [kv|].
    - by rewrite seen_extra_meta, seen_valued, only_decide, Hnil, app_nil_r by done.
    - cbn [app]. rewrite seen_valued, only_decide, Hnil, app_nil_r by done.
      by repeat case_decide. }
  reflexivity.
Qed.

Ltac flag_values_at :=
  rewrite seen_flag_values; unfold boolean_values, optional_values, only;
  cbn [flat_map fst snd];
  repeat match goal with
         | |- context [String.eqb ?a ?b] =>
             let r := eval vm_compute in (String.eqb a b) in
             change (String.eqb a b) with r
         end;
  cbv iota; cbn [app]; rewrite ?app_nil_r.

(** C9. For every configuration the executable sees [--test] exactly once,
    with the strategy as its value, whether or not [no_test] is set; when
    [no_test] is set it sees a bare [--no-test] as well (once), so the two
    flags occur together in the same invocation, and otherwise [--no-test]
    does not occur. *)
Theorem test_flag_once_with_no_test cwd exec c :
  flag_values "--test" (seen cwd exec c) = [Some (AStr (test c))]
  ∧ flag_values "--no-test" (seen cwd exec c)
    = (if no_test c then [None] else []).
Proof. split; flag_values_at; reflexivity. Qed.

(** C7. For every configuration the vector ends with [--package-format]
    followed by one token, and the executable sees that flag once: the token
    is [format:level] when a compression level is given and the format alone
    when it is not.  With format [tar-bz2] and level 5 the token is
    [tar-bz2:5]. *)
Theorem package_format_single_token cwd exec c :
  flag_values "--package-format" (seen cwd exec c)
  = [Some (AStr (match package_compression c with
                 | Some level => package_format c +:+ ":" +:+ pretty level
                 | None => package_format c
                 end))]
  ∧ (∃ front, build_args cwd exec c
              = front ++ [AStr "--package-format";
                          AStr (match package_compression c with
                                | Some level => package_format c +:+ ":" +:+ pretty level
                                | None => package_format c
                                end)])
  ∧ flag_values "--package-format" (seen cwd exec (with_format c "tar-bz2" (Some 5)))
    = [Some (AStr "tar-bz2:5")].
Proof.
  split; [|split].
  - flag_values_at. reflexivity.
  - unfold build_args, format_args, fmt. rewrite !app_assoc. eauto.
  - flag_values_at. reflexivity.
Qed.

(** C8, with the quoting as the code has it.  For every configuration, each
    of the seven optional scalar options ([recipe_dir], [up_to],
    [target_platform], [variant_config], [wrap_log_lines],
    [compression_threads], [noarch_build_platform]) is seen by the
    executable under its flag exactly when it is set, once, and its value
    is the shell-quoted string form of the option, whatever the type of the
    option. *)
Theorem optional_scalars_when_set cwd exec c :
  let sees flag := flag_values flag (seen cwd exec c) in
  let quoted (value : option scalar) :=
    match value with
    | Some a => [Some (AStr (shlex_quote (py_str a)))]
    | None => []
    end in
  sees "--recipe-dir" = quoted (recipe_dir c)
  ∧ sees "--up-to" = quoted (SStr <$> up_to c)
  ∧ sees "--target-platform" = quoted (SStr <$> target_platform c)
  ∧ sees "--variant-config" = quoted (SPath <$> variant_config c)
  ∧ sees "--wrap-log-lines" = quoted (SStr <$> wrap_log_lines c)
  ∧ sees "--compression-threads" = quoted (SInt <$> compression_threads c)
  ∧ sees "--noarch-build-platform" = quoted (SStr <$> noarch_build_platform c).
Proof.
  intros sees quoted. subst sees quoted. cbn beta.
  repeat split; flag_values_at; reflexivity.
Qed.

(** C8 as worded fails: a variant configuration is a [Path], not a [str],
    and is shell-quoted all the same. *)
Lemma unquoted_other_types_refuted :
  let c := with_variant_config default_config (Some "my cfg.yaml") in
  flag_values "--variant-config" (seen [] [] c) = [Some (AStr "'my cfg.yaml'")]
  ∧ flag_values "--variant-config" (seen [] [] c)
    ≠ [Some (AStr (spec_optional_token (SPath "my cfg.yaml")))]
  ∧ ¬ Forall (λ af : option scalar * string,
                flag_values af.2 (seen [] [] c)
                = match af.1 with
                  | Some a => [Some (AStr (spec_optional_token a))]
                  | None => []
                  end)
             (optional_values c).
Proof.
  split; [vm_compute; reflexivity|]. split; [vm_compute; discriminate|].
  intros H. unfold optional_values in H.
  do 3 apply Forall_cons_1 in H as [_ H]. apply Forall_cons_1 in H as [H _].
  vm_compute in H. discriminate.
Qed.

(** ** The optimized driver *)

(** The driver consults the two tables first and hands the resulting
    configuration to [rattler_build]. *)
Lemma driver_delegates cwd clk yaml fnm prefix popen parse dumps mktemp index o :
  optimized_rattler_build cwd clk yaml fnm prefix popen parse dumps mktemp index o
  = bind (lift (translate o)) (λ c,
      bind (rattler_build cwd prefix popen parse c) (λ built,
        let '(logs, code) := built in
        if code =? 0 then
          bind (_clean_output cwd clk yaml fnm (o_recipe o) (o_output_dir o)
                  (o_package_format o) (o_skip_existing o) logs
                  (o_clean_bld_cache o) (o_clean_src_cache o)) (λ pkg,
          bind (when (o_run_conda_index o)
                  (match index with
                   | Some update_index => update_index (o_output_dir o)
                   | None => ret tt
                   end)) (λ _, ret (Some pkg, logs, code)))
        else if o_check o then
          bind (with_named_temporary_file mktemp (_dump_jsonl dumps logs)) (λ name,
            raise (RuntimeError ("rattler-build failed. logs written to: "
                                 +:+ path_str name)))
        else ret (None, logs, code))).
Proof. reflexivity. Qed.

(** C6, with the key the code has for skipping tests.  For every setting of
    the other options, the driver translates the test option by the table
    [False -> skip], ["native" -> native], [True -> native-and-emulated] and
    the skip-existing option by [False -> none], [True -> local],
    ["all" -> all]; the configuration handed to [rattler_build] carries the
    translated values, and the executable sees them under [--test] and
    [--skip-existing]. *)
Theorem driver_tables o cwd exec :
  Forall (λ tt_ : pyval * string,
    Forall (λ ss : pyval * string,
      let c := delegated (with_modes o tt_.1 ss.1) tt_.2 ss.2 in
      translate (with_modes o tt_.1 ss.1) = Ok c
      ∧ test c = tt_.2 ∧ skip_existing c = ss.2
      ∧ flag_values "--test" (seen cwd exec c) = [Some (AStr tt_.2)]
      ∧ flag_values "--skip-existing" (seen cwd exec c) = [Some (AStr ss.2)])
      [ (PBool false, "none"); (PBool true, "local"); (PStr "all", "all") ])
    [ (PBool false, "skip"); (PStr "native", "native");
      (PBool true, "native-and-emulated") ].
Proof.
  repeat (apply Forall_cons; split); try apply Forall_nil_2;
    cbn [fst snd]; (split; [reflexivity|]); (split; [reflexivity|]);
    (split; [reflexivity|]); split; flag_values_at; reflexivity.
Qed.

(** C6 as worded fails at its first entry: the test option has no key
    [skip]; passing it raises a [KeyError] and nothing is delegated. *)
Lemma skip_key_refuted :
  translate (with_modes (sample_opt true) (PStr "skip") (PBool false))
  = Err (KeyError "'skip'")
  ∧ translate (with_modes (sample_opt true) (PStr "skip") (PBool false))
    ≠ Ok (delegated (with_modes (sample_opt true) (PStr "skip") (PBool false))
            "skip" "none").
Proof. split; [reflexivity|discriminate]. Qed.

(** ** The effect monad *)

Lemma bind_ok_inv {A B} (m : M A) (k : A → M B) fs fs' b :
  bind m k fs = (fs', Ok b) →
  ∃ fs1 a, m fs = (fs1, Ok a) ∧ k a fs1 = (fs', Ok b).
Proof.
  unfold bind. destruct (m fs) as [fs1 [a|e]]; [eauto|discriminate].
Qed.

Lemma bind_err {A B} (m : M A) (k : A → M B) fs fs' e :
  m fs = (fs', Err e) → bind m k fs = (fs', Err e).
Proof. unfold bind. by intros ->. Qed.

Lemma bind_ok {A B} (m : M A) (k : A → M B) fs fs' a :
  m fs = (fs', Ok a) → bind m k fs = k a fs'.
Proof. unfold bind. by intros ->. Qed.

Lemma shrinks_ret {A} (a : A) : shrinks (ret a).
Proof. by intros fs. Qed.

Lemma shrinks_raise {A} e : shrinks (@raise A e).
Proof. by intros fs. Qed.

Lemma shrinks_lift {A} (r : result A) : shrinks (lift r).
Proof. by intros fs. Qed.

Lemma shrinks_gets {A} (f : FS → A) : shrinks (gets f).
Proof. by intros fs. Qed.

Lemma shrinks_modify (f : FS → FS) : (∀ fs, f fs ⊆ fs) → shrinks (modify f).
Proof. intros H fs. apply H. Qed.

Lemma shrinks_bind {A B} (m : M A) (k : A → M B) :
  shrinks m → (∀ a, shrinks (k a)) → shrinks (bind m k).
Proof.
  intros Hm Hk fs. unfold bind. specialize (Hm fs).
  destruct (m fs) as [fs1 [a|e]]; [|done].
  etrans; [apply Hk|done].
Qed.

Lemma shrinks_when b (m : M unit) : shrinks m → shrinks (when b m).
Proof. destruct b; [done|]. intros _. apply shrinks_ret. Qed.

Lemma shrinks_if {A} (b : bool) (m1 m2 : M A) :
  shrinks m1 → shrinks m2 → shrinks (if b then m1 else m2).
Proof. by destruct b. Qed.

Lemma rmtree_subseteq fs p : rmtree fs p ⊆ fs.
Proof. apply map_filter_subseteq. Qed.


Lemma unlink_subseteq fs p : unlink fs p ⊆ fs.
Proof. apply delete_subseteq. Qed.

Lemma shrinks_remove_empty_folder p : shrinks (_remove_empty_folder p).
Proof.
  unfold _remove_empty_folder. apply shrinks_bind; [apply shrinks_gets|].
  intros b. apply shrinks_when, shrinks_modify. intros fs. apply delete_subseteq.
Qed.

Section ReconcilerFacts.
Variable cwd : path.
Variable clk : clock.
Variable yaml : string → result string.
Variable fnm : string → string → bool.

Lemma shrinks_rglob out pat : shrinks (rglob fnm out pat).
Proof.
  unfold rglob. apply shrinks_if; [apply shrinks_raise|].
  apply shrinks_if; [apply shrinks_raise|apply shrinks_gets].
Qed.

Lemma shrinks_locate_package out variant format :
  shrinks (locate_package fnm out variant format).
Proof.
  unfold locate_package. apply shrinks_bind.
  - repeat apply shrinks_if; auto using shrinks_ret, shrinks_raise.
  - intros ext. apply shrinks_bind; [apply shrinks_rglob|].
    intros [|p [|q l]]; auto using shrinks_ret, shrinks_raise.
Qed.

Lemma shrinks_clean_source logs cs : shrinks (clean_source cwd logs cs).
Proof.
  unfold clean_source. apply shrinks_bind; [apply shrinks_lift|].
  intros msg. apply shrinks_bind; [apply shrinks_lift|].
  intros [|tok toks]; [apply shrinks_raise|].
  apply shrinks_bind; [apply shrinks_gets|]. intros b.
  apply shrinks_if; [apply shrinks_raise|].
  apply shrinks_when, shrinks_modify. intros fs. apply unlink_subseteq.
Qed.

Lemma clean_output_eq recipe out format skip logs cb cs fs :
  _clean_output cwd clk yaml fnm recipe out format skip logs cb cs fs
  = match derive_session cwd clk yaml recipe out skip logs fs with
    | Err e => (fs, Err e)
    | Ok s =>
        if negb (Bool.eqb (is_dir fs (s_bld_dir s)) (s_not_skipped s))
        then (fs, Err mismatch)
        else cleaning cwd fnm s format logs (is_dir fs (s_bld_dir s)) cb cs fs
    end.
Proof.
  unfold _clean_output, bind at 1.
  destruct (derive_session _ _ _ _ _ _ _ _) as [s|e]; [|done].
  unfold bind at 1, gets. by destruct (negb _).
Qed.

Lemma shrinks_cleaning s format logs ex cb cs :
  shrinks (cleaning cwd fnm s format logs ex cb cs).
Proof.
  unfold cleaning.
  apply shrinks_bind; [apply shrinks_when, shrinks_clean_source|]. intros _.
  apply shrinks_bind; [apply shrinks_when, shrinks_remove_empty_folder|].
  intros _. apply shrinks_bind; [|intros _; apply shrinks_locate_package].
  apply shrinks_when, shrinks_bind.
  - apply shrinks_when, shrinks_modify. intros fs. apply rmtree_subseteq.
  - intros _. apply shrinks_remove_empty_folder.
Qed.

(** [_clean_output] never creates or changes an entry. *)
Lemma shrinks_clean_output recipe out format skip logs cb cs :
  shrinks (_clean_output cwd clk yaml fnm recipe out format skip logs cb cs).
Proof.
  intros fs. rewrite clean_output_eq.
  destruct (derive_session _ _ _ _ _ _ _ _) as [s|e]; [|done].
  destruct (negb _); [done|]. apply shrinks_cleaning.
Qed.
End ReconcilerFacts.

(** ** The reconciler *)

Section ReconcilerClaims.
Variable cwd : path.
Variable clk : clock.
Variable yaml : string → result string.
Variable fnm : string → string → bool.

(** C1, with the direction of the check as the code has it.  For every
    run that gets as far as the check: when the skip flag equals the
    existence of the build directory (skipped and the directory is there,
    or not skipped and it is missing) the run aborts with the consistency
    error and leaves the file system as it found it; when the skip flag
    is the negation of the existence the run goes on to the cleaning
    stage; and a run that returns a package had the skip flag set exactly
    when the build directory did not exist. *)
Theorem consistency_check recipe out format skip logs cb cs fs s :
  derive_session cwd clk yaml recipe out skip logs fs = Ok s →
  let skip_flag := negb (s_not_skipped s) in
  let exists_ := is_dir fs (s_bld_dir s) in
  let run := _clean_output cwd clk yaml fnm recipe out format skip logs cb cs in
  (skip_flag = exists_ → run fs = (fs, Err mismatch))
  ∧ (skip_flag = negb exists_ →
     run fs = cleaning cwd fnm s format logs exists_ cb cs fs)
  ∧ (∀ fs' p, run fs = (fs', Ok p) → skip_flag = negb exists_).
Proof.
  intros Hs skip_flag exists_ run. subst run skip_flag exists_.
  rewrite clean_output_eq, Hs.
  destruct (s_not_skipped s), (is_dir fs (s_bld_dir s)); cbn;
    repeat split; try done.
Qed.

Lemma next_src_msg_exhausted lines :
  Forall (λ line, ∃ msg, _get_msg line = Ok (JStr msg)
                         ∧ startswith msg SRC_PREFIX = false) lines →
  next_src_msg lines = Err StopIteration.
Proof.
  induction 1 as [|line lines (msg & Hm & Hp) _ IH]; [done|].
  cbn [next_src_msg]. rewrite Hm. cbn. by rewrite Hp.
Qed.

(** C10. [_clean_output] is partial.  With fewer than two log events it
    fails with [IndexError], whatever the disk holds.
    In the not-skipped case (the session is derived, it is not skipped and
    the build directory exists, so the check passes), when every event
    after index 1 has a message and none starts with the source-copy
    prefix, it fails with [StopIteration].  Neither failure touches the
    file system. *)
Theorem clean_output_partial recipe out format skip logs cb cs fs :
  let run := _clean_output cwd clk yaml fnm recipe out format skip logs cb cs in
  ((length logs < 2)%nat → run fs = (fs, Err IndexError))
  ∧ (∀ s, derive_session cwd clk yaml recipe out skip logs fs = Ok s →
          s_not_skipped s = true →
          is_dir fs (s_bld_dir s) = true →
          Forall (λ line, ∃ msg, _get_msg line = Ok (JStr msg)
                                 ∧ startswith msg SRC_PREFIX = false)
                 (drop 2 logs) →
          run fs = (fs, Err StopIteration)).
Proof.
  intros run. subst run. split.
  - intros Hlen. rewrite clean_output_eq. unfold derive_session, list_get.
    rewrite lookup_ge_None_2 by lia. done.
  - intros s Hs Hns Hex Hlines. rewrite clean_output_eq, Hs, Hex, Hns. cbn.
    unfold cleaning. rewrite Hns. cbn [when].
    apply bind_err. unfold clean_source.
    apply bind_err. unfold lift. by rewrite next_src_msg_exhausted.
Qed.





End ReconcilerClaims.

(** ** Locating the package *)


(** *** Names and patterns *)

Lemma chars_append s1 s2 : chars (s1 +:+ s2) = chars s1 ++ chars s2.
Proof.
  unfold chars. induction s1 as [|a s1 IH]; [done|].
  change (String a s1 +:+ s2) with (String a (s1 +:+ s2)).
  cbn. by rewrite IH.
Qed.

Lemma split_slash_free l cur :
  forallb (λ c, negb (Ascii.eqb c slash)) l = true →
  split_slash l cur = [of_chars (rev cur ++ l)].
Proof.
  revert cur. induction l as [|c l IH]; intros cur Hl; cbn in *.
  - by rewrite app_nil_r.
  - apply andb_true_iff in Hl as [Hc Hl].
    destruct (Ascii.eqb c slash); [done|].
    rewrite IH by done. cbn. by rewrite <- app_assoc.
Qed.

Lemma parts_plain name :
  slash_free name = true → name ≠ "" → name ≠ "." → parts name = [name].
Proof.
  intros Hfree H1 H2. unfold parts, slash_free in *.
  rewrite split_slash_free by done. cbn [rev app].
  unfold of_chars, chars. rewrite String.string_of_list_ascii_of_string.
  by rewrite filter_cons_True, filter_nil.
Qed.




(** *** The selectors *)

Lemma parent_Some k p : parent k = Some p ↔ ∃ c, k = p ++ [c].
Proof.
  unfold parent. split.
  - destruct k as [|a k]; [done|]. intros [= <-].
    exists (List.last (a :: k) a). by apply app_removelast_last.
  - intros [c ->]. destruct p as [|a p]; [done|].
    cbn [app]. f_equal. apply (removelast_last (a :: p) c).
Qed.





Section Locate.
Variable fnm : string → string → bool.




End Locate.

(** ** The sample build *)

(** A run is compared with its expected outcome by deciding the equality of
    the two file systems and computing the value. *)
Lemma run_is {A} (r : FS * result A) (fs : FS) (v : result A) :
  bool_decide (r.1 = fs) = true → r.2 = v → r = (fs, v).
Proof.
  intros H1%bool_decide_eq_true_1 H2. destruct r as [fs' v']. cbn in *.
  congruence.
Qed.

Ltac run_eval := apply run_is; vm_compute; reflexivity.

Ltac decide_by_computation :=
  match goal with
  | |- ?P => apply (bool_decide_eq_true_1 P); vm_compute; reflexivity
  end.

Lemma sample_session :
  derive_session work utc_clock yaml_mypkg "/work/recipe" "/work/out"
    (PBool false) built_logs fs_built = Ok session_built.
Proof. vm_compute. reflexivity. Defined.

Lemma sample_first_run :
  sample_clean (PBool false) built_logs true true fs_built
  = (fs_cleaned, Ok package_file).
Proof. run_eval. Qed.

Lemma sample_session_skipped :
  derive_session work utc_clock yaml_mypkg "/work/recipe" "/work/out"
    (PBool true) skipped_logs fs_built = Ok session_skipped.
Proof. vm_compute. reflexivity. Defined.

(** C1 at the sample build, skipped although its build directory exists:
    the run aborts and the disk is untouched. *)
Lemma consistency_check_witness :
  derive_session work utc_clock yaml_mypkg "/work/recipe" "/work/out"
    (PBool true) skipped_logs fs_built = Ok session_skipped
  ∧ negb (s_not_skipped session_skipped)
    = is_dir fs_built (s_bld_dir session_skipped)
  ∧ sample_clean (PBool true) skipped_logs true true fs_built
    = (fs_built, Err mismatch).
Proof.
  split; [exact sample_session_skipped|].
  assert (negb (s_not_skipped session_skipped)
          = is_dir fs_built (s_bld_dir session_skipped)) as Heq
    by (vm_compute; reflexivity).
  split; [exact Heq|].
  exact (proj1 (consistency_check work utc_clock yaml_mypkg no_fnmatch
    "/work/recipe" "/work/out" "conda" (PBool true) skipped_logs true true
    fs_built session_skipped sample_session_skipped) Heq).
Defined.

(** C1 as worded fails in both directions on the sample disk: a build that
    was not skipped and whose directory exists is what the specification
    calls a mismatch, yet the run returns the package and deletes the
    caches; a skipped build whose directory exists is what it calls
    consistent, yet the run aborts. *)
Lemma skip_iff_exists_refuted :
  ¬ (∀ skip logs fs s,
       derive_session work utc_clock yaml_mypkg "/work/recipe" "/work/out"
         skip logs fs = Ok s →
       spec_consistent (negb (s_not_skipped s)) (is_dir fs (s_bld_dir s)) = false →
       ∃ e, sample_clean skip logs true true fs = (fs, Err e))
  ∧ spec_consistent true (is_dir fs_built bld_dir_1705314600) = true
  ∧ sample_clean (PBool true) skipped_logs true true fs_built
    = (fs_built, Err mismatch).
Proof.
  split; [|split; [vm_compute; reflexivity|run_eval]].
  intros H.
  destruct (H (PBool false) built_logs fs_built session_built sample_session)
    as [e He]; [vm_compute; reflexivity|].
  rewrite sample_first_run in He. discriminate.
Qed.



(** C10 at the sample build: no log at all, and a log without a source
    copy. *)
Lemma clean_output_partial_witness :
  sample_clean (PBool false) [] true true fs_built = (fs_built, Err IndexError)
  ∧ sample_clean (PBool false) sourceless_logs true true fs_built
    = (fs_built, Err StopIteration).
Proof.
  pose proof (clean_output_partial work utc_clock yaml_mypkg no_fnmatch
    "/work/recipe" "/work/out" "conda" (PBool false)) as H.
  split.
  - apply (proj1 (H [] true true fs_built)). cbn. lia.
  - apply (proj2 (H sourceless_logs true true fs_built) session_built).
    + vm_compute. reflexivity.
    + reflexivity.
    + vm_compute. reflexivity.
    + repeat constructor. eexists. split; reflexivity.
Defined.


(** ** A failed build *)

Lemma with_named_temporary_file_fresh mktemp text fs :
  fs !! mktemp fs = None →
  with_named_temporary_file mktemp text fs = (fs, Ok (mktemp fs)).
Proof.
  intros Hfresh. unfold with_named_temporary_file, bind, gets, modify, ret, unlink.
  rewrite bool_decide_eq_false_2 by (rewrite Hfresh; by intros [? ?]).
  by rewrite insert_insert_eq, delete_insert_id.
Qed.

(** What the driver does once [rattler_build] has returned a non-zero code:
    the disk stays as the build left it, so nothing is cleaned; without
    [check] the caller gets [(None, logs, code)]; with [check] the error names
    a temporary file which, having been removed when the [with] block closed
    it, is not on the disk. *)
Lemma nonzero_exit cwd clk yaml fnm prefix popen parse dumps mktemp index
    o c fs fs1 logs code :
  translate o = Ok c →
  rattler_build cwd prefix popen parse c fs = (fs1, Ok (logs, code)) →
  code ≠ 0 →
  fs1 !! mktemp fs1 = None →
  optimized_rattler_build cwd clk yaml fnm prefix popen parse dumps mktemp index
    o fs
  = (fs1,
     if o_check o
     then Err (RuntimeError ("rattler-build failed. logs written to: "
                             +:+ path_str (mktemp fs1)))
     else Ok (None, logs, code)).
Proof.
  intros Ht Hb Hcode Hfresh. rewrite driver_delegates.
  unfold bind at 1, lift. rewrite Ht.
  unfold bind at 1. rewrite Hb.
  rewrite (proj2 (Z.eqb_neq code 0)) by done.
  destruct (o_check o); [|done].
  unfold bind. by rewrite with_named_temporary_file_fresh.
Qed.

(** C4 at a failed build with [check] set: the driver raises the error that
    names [/tmp/tmpk3x9q2mz], and leaves the disk as the build left it, the
    build directory and the source cache included; the file the error names
    does not exist.  Without [check] the same build returns
    [(None, logs, 1)]. *)
Theorem strict_failure_names_a_removed_file :
  sample_driver true fs_failed
  = (fs_failed,
     Err (RuntimeError "rattler-build failed. logs written to: /tmp/tmpk3x9q2mz"))
  ∧ fs_failed !! tmp_file = None
  ∧ is_dir fs_failed bld_dir_1705314600 = true
  ∧ is_file fs_failed src_file = true
  ∧ sample_driver false fs_failed = (fs_failed, Ok (None, failed_logs, 1)).
Proof.
  split; [run_eval|]. split; [vm_compute; reflexivity|].
  split; [vm_compute; reflexivity|]. split; [vm_compute; reflexivity|run_eval].
Qed.

(** ** Timestamps *)

Lemma rne_div_bounds n d :
  0 ≤ n → 0 < d → n / d ≤ rne_div n d ≤ n / d + 1.
Proof.
  intros Hn Hd. unfold rne_div.
  repeat match goal with |- context [if ?b then _ else _] => destruct b end; lia.
Qed.

(** Below [2^33] the spacing of binary64 numbers is under a microsecond:
    rounding the quotient by [10^6] never reaches the next integer. *)
Lemma b64_trunc_scaled n e :
  0 ≤ n → e ≤ -20 →
  b64_trunc (scaled_rne n 1000000 e, e) = n / 1000000.
Proof.
  intros Hn He. unfold b64_trunc, scaled_rne. cbn [fst snd].
  rewrite (proj2 (Z.leb_gt 0 e)) by lia.
  set (P := 2 ^ (- e)).
  assert (2 ^ 20 ≤ P) as HP by (apply Z.pow_le_mono_r; lia).
  change (2 ^ 20) with 1048576 in HP.
  pose proof (rne_div_bounds (n * P) 1000000 ltac:(nia) ltac:(lia)) as [Hlo Hhi].
  pose proof (Z.div_mod n 1000000 ltac:(lia)) as Hdm.
  pose proof (Z.mod_pos_bound n 1000000 ltac:(lia)) as Hr.
  set (q := n / 1000000) in *. set (r := n mod 1000000) in *.
  assert (q * P ≤ n * P / 1000000) as H1.
  { apply Z.div_le_lower_bound; [lia|nia]. }
  assert (n * P / 1000000 < q * P + P - 1) as H2.
  { apply Z.div_lt_upper_bound; [lia|nia]. }
  symmetry. apply Z.div_unique with (r := rne_div (n * P) 1000000 - q * P); lia.
Qed.

Lemma ratio_log2_small n :
  0 < n < 2 ^ 33 * 1000000 → ratio_log2 n 1000000 ≤ 32.
Proof.
  intros [Hpos Hlt]. unfold ratio_log2.
  change (Z.log2 1000000) with 19.
  assert (Z.log2 n < 53) as Hlog.
  { apply Z.log2_lt_pow2; [done|]. change (2 ^ 33) with 8589934592 in Hlt.
    change (2 ^ 53) with 9007199254740992. lia. }
  destruct (decide (Z.log2 n - 19 = 33)) as [->|Hne].
  - cbn [Z.leb Z.compare]. rewrite (proj2 (Z.leb_gt _ _)) by lia. lia.
  - repeat match goal with |- context [if ?b then _ else _] => destruct b end; lia.
Qed.

(** [int(td.total_seconds())] drops the microseconds (toward zero) for
    every interval shorter than [2^33] seconds. *)
Lemma int_total_seconds_quot us :
  Z.abs us < 2 ^ 33 * 1000000 →
  int_total_seconds us = us ÷ 1000000.
Proof.
  intros Hus. unfold int_total_seconds.
  destruct (Z.eqb_spec us 0) as [->|Hne]; [done|].
  assert (∀ n, 0 < n < 2 ^ 33 * 1000000 →
               b64_trunc (b64_div n 1000000) = n / 1000000) as Hpos.
  { intros n Hn. unfold b64_div. apply b64_trunc_scaled; [lia|].
    pose proof (ratio_log2_small n Hn). lia. }
  destruct (Z.ltb_spec 0 us).
  - rewrite Hpos by lia. by rewrite Z.quot_div_nonneg by lia.
  - rewrite Hpos by lia.
    rewrite <- (Z.opp_involutive us) at 2.
    rewrite Z.quot_opp_l by lia. by rewrite Z.quot_div_nonneg by lia.
Qed.

(** Beyond that range the rounding shows: the last microsecond of
    2600-01-01T00:00:59 is counted as the next second. *)
Example int_total_seconds_far : int_total_seconds 19880899259999999 = 19880899260.
Proof. vm_compute. reflexivity. Qed.

(** What the code is after, and when it gets there.  For a timestamp that
    [strptime] accepts and that lies within [2^33] seconds of the epoch:
    when the offset from UTC that the system zone has at the moment of the
    call equals the offset it gives to the timestamp read as local time,
    [_get_local_ts] returns the POSIX seconds of the timestamp read as UTC,
    microseconds dropped; and two calls on the same input agree whenever
    the zone has the same offset at the moments of both calls. *)
Lemma local_ts_is_utc_seconds k s dt :
  strptime s = Ok dt →
  -86400 < utcoffset k (now k) < 86400 →
  utcoffset k (mktime k (wall_us dt / 1000000)) = utcoffset k (now k) →
  Z.abs (wall_us dt) < 2 ^ 33 * 1000000 →
  _get_local_ts k (JStr s) = Ok (wall_us dt ÷ 1000000)
  ∧ ∀ k', utcoffset k' = utcoffset k →
          utcoffset k' (now k') = utcoffset k (now k) →
          _get_local_ts k' (JStr s) = _get_local_ts k (JStr s).
Proof.
  intros Hs Hoff Hsame Hrange. split.
  - unfold _get_local_ts. rewrite Hs. cbn [rbind]. rewrite Hsame.
    unfold fixed_tz.
    rewrite (proj2 (andb_true_iff _ _))
      by (split; apply Z.ltb_lt; lia). cbn [rbind].
    change (2 ^ 33) with 8589934592 in Hrange.
    assert (∀ x, Z.abs x < 8700000000000000 → check_range x = Ok x) as Hchk.
    { intros x Hx. unfold check_range, min_us, max_us, epoch_ord.
      rewrite (proj2 (andb_true_iff _ _)); [done|].
      split; apply Z.leb_le; lia. }
    rewrite !Hchk by lia. cbn [rbind]. rewrite !Hchk by lia. cbn [rbind].
    rewrite !Hchk by lia. cbn [rbind].
    f_equal. rewrite <- int_total_seconds_quot by (change (2 ^ 33) with 8589934592; lia).
    f_equal. lia.
  - intros k' Hfun Hnow. unfold _get_local_ts, mktime. by rewrite Hnow, Hfun.
Qed.

(** The timestamp of the specification, on a machine in Berlin in January,
    and again an hour later. *)
Lemma local_ts_in_january :
  _get_local_ts (berlin in_january) sample_timestamp = Ok 1705314600
  ∧ _get_local_ts (berlin an_hour_later) sample_timestamp
    = _get_local_ts (berlin in_january) sample_timestamp.
Proof.
  assert (strptime "2024-01-15T10:30:00.123456Z" = Ok sample_datetime) as H1
    by (vm_compute; reflexivity).
  assert (-86400 < utcoffset (berlin in_january) (now (berlin in_january)) < 86400)
    as H2 by (vm_compute; split; reflexivity).
  assert (utcoffset (berlin in_january)
            (mktime (berlin in_january) (wall_us sample_datetime / 1000000))
          = utcoffset (berlin in_january) (now (berlin in_january))) as H3
    by (vm_compute; reflexivity).
  assert (Z.abs (wall_us sample_datetime) < 2 ^ 33 * 1000000) as H4
    by (vm_compute; reflexivity).
  destruct (local_ts_is_utc_seconds (berlin in_january)
              "2024-01-15T10:30:00.123456Z" sample_datetime H1 H2 H3 H4)
    as [Hval Hrep].
  split; [exact Hval|].
  apply (Hrep (berlin an_hour_later)); [reflexivity|vm_compute; reflexivity].
Defined.

(** C2.  The code misses the UTC reading wherever the two offsets differ,
    since line 81 keeps the offset of the moment of the call as a fixed
    zone.  On a machine in Berlin, the event logged at 2024-03-31T01:10:00Z
    (1711847400 seconds after the epoch) and read a minute later, when
    summer time has begun, comes out an hour late; the timestamp
    2024-03-31T00:59:00Z read half a minute before the clocks go forward
    and again a minute later gives two integers an hour apart; and the
    timestamp of the specification read in July is an hour off its UTC
    reading 1705314600. *)
Theorem local_ts_misses_utc_reading :
  strptime "2024-03-31T01:10:00.000000Z" = Ok late_datetime
  ∧ wall_us late_datetime ÷ 1000000 = 1711847400
  ∧ _get_local_ts (berlin (1711847400 + 60)) late_timestamp = Ok 1711851000
  ∧ _get_local_ts (berlin before_switch) switch_timestamp = Ok 1711846740
  ∧ _get_local_ts (berlin after_switch) switch_timestamp = Ok 1711850340
  ∧ wall_us sample_datetime ÷ 1000000 = 1705314600
  ∧ _get_local_ts (berlin in_july) sample_timestamp = Ok 1705318200.
Proof. repeat split; vm_compute; reflexivity. Qed.

(** What the hour costs: the build of 2024-03-31T01:10:00Z, reconciled a
    minute later on a machine in Berlin, is looked for under the wrong
    name and the run aborts; on a machine on UTC the same run returns the
    package. *)
Example late_build_aborts :
  _clean_output work (berlin (1711847400 + 60)) yaml_mypkg no_fnmatch
    "/work/recipe" "/work/out" "conda" (PBool false) late_logs true true fs_late
  = (fs_late, Err mismatch)
  ∧ _clean_output work {| utcoffset := λ _, 0; now := 1711847400 + 60 |}
      yaml_mypkg no_fnmatch
      "/work/recipe" "/work/out" "conda" (PBool false) late_logs true true
      fs_late
    = (fs_cleaned, Ok package_file).
Proof. split; run_eval. Qed.

(** ** Pruning an empty folder twice *)

(** [_remove_empty_folder] checks before it deletes: a second call right
    after the first finds nothing to do and is not an error. *)
Lemma remove_empty_folder_idempotent p fs :
  _remove_empty_folder p (_remove_empty_folder p fs).1
  = ((_remove_empty_folder p fs).1, Ok tt).
Proof.
  unfold _remove_empty_folder, bind, gets, when, modify, ret, rmdir. cbn.
  destruct (is_dir fs p && bool_decide (iterdir fs p = ∅)) eqn:E; cbn.
  - unfold is_dir. by rewrite lookup_delete_eq.
  - by rewrite E.
Qed.

(** ** The models of the library functions on the inputs of their
    documentation *)

Example shlex_split_words : shlex_split "a b" = Ok ["a"; "b"].
Proof. reflexivity. Qed.

Example shlex_split_quoted : shlex_split "'a b' c" = Ok ["a b"; "c"].
Proof. reflexivity. Qed.

Example shlex_split_blank : shlex_split "  " = Ok [].
Proof. reflexivity. Qed.

Example shlex_split_escaped : shlex_split "a\ b" = Ok ["a b"].
Proof. reflexivity. Qed.

Example shlex_split_unclosed :
  shlex_split "'unclosed" = Err (ValueError "No closing quotation").
Proof. reflexivity. Qed.

Example shlex_split_empty_quotes : shlex_split "''" = Ok [""].
Proof. reflexivity. Qed.

Example shlex_quote_space : shlex_quote "my cfg.yaml" = "'my cfg.yaml'".
Proof. reflexivity. Qed.

Example shlex_quote_empty : shlex_quote "" = "''".
Proof. reflexivity. Qed.

Example shlex_quote_safe : shlex_quote "a_b@%+=:,./-" = "a_b@%+=:,./-".
Proof. reflexivity. Qed.

Example shlex_quote_int : shlex_quote (py_str (SInt (-7))) = "-7".
Proof. vm_compute. reflexivity. Qed.

Example strptime_sample :
  strptime "2024-01-15T10:30:00.123456Z" = Ok sample_datetime.
Proof. vm_compute. reflexivity. Qed.

Example strptime_short_fields :
  strptime "2024-1-5T1:2:3.5Z"
  = Ok {| dt_year := 2024; dt_month := 1; dt_day := 5; dt_hour := 1;
          dt_minute := 2; dt_second := 3; dt_microsecond := 500000 |}.
Proof. vm_compute. reflexivity. Qed.

Example strptime_leap_second :
  strptime "2024-01-15T10:30:60.1Z" = Err (ValueError "second must be in 0..59").
Proof. vm_compute. reflexivity. Qed.

Example strptime_seven_digits : strptime "2024-01-15T10:30:00.1234567Z" = Err no_match.
Proof. vm_compute. reflexivity. Qed.

Example strptime_february : is_ok (strptime "2024-02-30T10:30:00.1Z") = false.
Proof. vm_compute. reflexivity. Qed.

Example local_ts_utc_machine :
  _get_local_ts utc_clock sample_timestamp = Ok 1705314600.
Proof. vm_compute. reflexivity. Qed.

Example local_ts_before_epoch :
  _get_local_ts utc_clock (JStr "1969-12-31T23:59:59.5Z") = Ok 0.
Proof. vm_compute. reflexivity. Qed.

(** 2024-03-31 at 03:30 in Berlin, half an hour after the clocks went
    forward: a timestamp of 00:59:59 UTC comes out an hour late. *)
Example local_ts_dst_night :
  _get_local_ts (berlin 1711848600) (JStr "2024-03-31T00:59:59.5Z")
  = Ok 1711850399.
Proof. vm_compute. reflexivity. Qed.

(** The builder on a configuration whose channel is named like a flag. *)
Example seen_with_no_test :
  let c := {| recipe := "."; recipe_dir := None; up_to := None;
              build_platform := "linux-64"; target_platform := None;
              host_platform := "linux-64"; channels := ["--test"];
              variant_config := None; verbose := 2; quiet := false;
              ignore_recipe_variants := false; log_style := "fancy";
              render_only := false; with_solve := false;
              wrap_log_lines := None; color := "auto"; keep_build := false;
              no_build_id := false; compression_threads := Some 4;
              experimental := false; extra_meta := Some [("k", "v w")];
              package_format := "tar-bz2"; package_compression := Some 5;
              no_include_recipe := false; no_test := true; test := "native";
              color_build_log := false; output_dir := "out";
              skip_existing := "none"; noarch_build_platform := None |} in
  build_args ["work"] exec_file c
  = [ APath exec_file; AStr "build"; AStr "--recipe"; APath ["work"];
      AStr "--build-platform"; AStr "linux-64";
      AStr "--host-platform"; AStr "linux-64";
      AStr "--log-style"; AStr "fancy"; AStr "--color"; AStr "auto";
      AStr "--test"; AStr "native";
      AStr "--output-dir"; APath ["work"; "out"];
      AStr "--skip-existing"; AStr "none";
      AStr "--channel"; AStr "--test";
      AStr "--verbose"; AStr "--verbose"; AStr "--no-test";
      AStr "--compression-threads"; AStr "4";
      AStr "--extra-meta"; AStr "'k=v w'";
      AStr "--package-format"; AStr "tar-bz2:5" ]
  ∧ flag_values "--test" (seen ["work"] exec_file c) = [Some (AStr "native")].
Proof. split; vm_compute; reflexivity. Qed.

(** The lookup of the package when nothing, or more than one entry,
    matches. *)
Example locate_none :
  (locate_package no_fnmatch out_dir "otherpkg-2.0-0" "conda" fs_cleaned).2
  = Err (RuntimeError "none or multiple output packages found: []").
Proof. vm_compute. reflexivity. Qed.

Example locate_two :
  is_ok (locate_package no_fnmatch out_dir "mypkg-1.0-py_0" "conda"
           (<[ ["work"; "out"; "noarch"; "mypkg-1.0-py_0.conda"] := File "" ]>
              (<[ ["work"; "out"; "noarch"] := Dir ]> fs_cleaned))).2 = false.
Proof. vm_compute. reflexivity. Qed.

Example locate_unknown_format :
  (locate_package no_fnmatch out_dir "mypkg-1.0-py_0" "zip" fs_cleaned).2
  = Err (ValueError "Unknown package-format: zip").
Proof. vm_compute. reflexivity. Qed.

(** The selectors in the tree of the examples, as [pathlib] answers there. *)
Example rglob_name :
  globs "p.conda" [glob_out ++ ["p.conda"]; glob_out ++ ["a"; "p.conda"]] = true.
Proof. vm_compute. reflexivity. Qed.

Example rglob_parent :
  globs "../p.conda"
    [ glob_out ++ [".."; "p.conda"]; glob_out ++ ["c"; ".."; "p.conda"];
      glob_out ++ ["a"; ".."; "p.conda"];
      glob_out ++ ["a"; "b"; ".."; "p.conda"] ] = true.
Proof. vm_compute. reflexivity. Qed.

Example rglob_through_parent :
  globs "a/b/../../p.conda" [glob_out ++ ["a"; "b"; ".."; ".."; "p.conda"]]
  = true
  ∧ globs "zz/../p.conda" [] = true.
Proof. split; vm_compute; reflexivity. Qed.

Example rglob_recursive_part :
  globs "a/**/q.conda" [glob_out ++ ["a"; "b"; "q.conda"]] = true
  ∧ globs "**/**/p.conda"
      [glob_out ++ ["p.conda"]; glob_out ++ ["a"; "p.conda"]] = true
  ∧ globs "**"
      [glob_out; glob_out ++ ["c"]; glob_out ++ ["a"]; glob_out ++ ["a"; "b"]]
    = true.
Proof. repeat split; vm_compute; reflexivity. Qed.

Example rglob_wildcard :
  globs "*.conda"
    [ glob_out ++ ["p.conda"]; glob_out ++ ["a"; "p.conda"];
      glob_out ++ ["a"; "b"; "q.conda"] ] = true
  ∧ globs "*/p.conda" [glob_out ++ ["a"; "p.conda"]] = true
  ∧ globs "*/../p.conda"
      [ glob_out ++ ["a"; ".."; "p.conda"];
        glob_out ++ ["a"; "b"; ".."; "p.conda"];
        glob_out ++ ["c"; ".."; "p.conda"] ] = true.
Proof. repeat split; vm_compute; reflexivity. Qed.

Example rglob_trailing_slash :
  globs "a/" [glob_out ++ ["a"]] = true
  ∧ globs "p.conda/" [] = true
  ∧ globs "*/" [glob_out ++ ["a"]; glob_out ++ ["a"; "b"]; glob_out ++ ["c"]]
    = true.
Proof. repeat split; vm_compute; reflexivity. Qed.

Example rglob_invalid :
  (rglob sample_fnmatch glob_out "a**b.conda" fs_glob).2 = Err invalid_pattern
  ∧ (rglob sample_fnmatch ["nowhere"] "a/**b" fs_glob).2 = Err invalid_pattern
  ∧ (rglob sample_fnmatch glob_out "/p.conda" fs_glob).2
    = Err NotImplementedError
  ∧ (rglob sample_fnmatch (glob_out ++ ["p.conda"]) "x" fs_glob).2 = Ok [].
Proof. repeat split; vm_compute; reflexivity. Qed.


(* ===================================================================== *)
(** * Further properties *)
(* ===================================================================== *)

(** ** More of the argument builder *)

(** X1. Each of the nine boolean options puts its flag on the command line
    exactly when it is true, bare and once; a false option leaves no trace.
    The flag of [keep_build] is spelled [--keep_build], with an
    underscore. *)
Theorem boolean_flags_iff_true cwd exec c :
  let sees flag := flag_values flag (seen cwd exec c) in
  let bare (b : bool) : list (option arg) := if b then [None] else [] in
  sees "--quiet" = bare (quiet c)
  ∧ sees "--ignore-recipe-variants" = bare (ignore_recipe_variants c)
  ∧ sees "--render-only" = bare (render_only c)
  ∧ sees "--with-solve" = bare (with_solve c)
  ∧ sees "--keep_build" = bare (keep_build c)
  ∧ sees "--no-build-id" = bare (no_build_id c)
  ∧ sees "--experimental" = bare (experimental c)
  ∧ sees "--no-include-recipe" = bare (no_include_recipe c)
  ∧ sees "--color-build-log" = bare (color_build_log c).
Proof.
  intros sees bare. subst sees bare. cbn beta.
  repeat split; flag_values_at; reflexivity.
Qed.

(** X2. The channels are passed one [--channel] each, in the order of the
    configuration, nothing added and nothing dropped, whatever their text;
    an empty sequence of channels gives no [--channel] at all. *)
Theorem channels_in_order cwd exec c :
  flag_values "--channel" (seen cwd exec c)
  = (λ ch, Some (AStr ch)) <$> channels c.
Proof. flag_values_at. reflexivity. Qed.

(** X3. [--verbose] is seen as many times as the verbosity says: the number
    of its occurrences is the verbosity when that is positive and zero
    otherwise, and each occurrence is bare. *)
Theorem verbose_repeated cwd exec c :
  flag_values "--verbose" (seen cwd exec c)
  = replicate (Z.to_nat (verbose c)) None
  ∧ Z.of_nat (length (flag_values "--verbose" (seen cwd exec c)))
    = Z.max 0 (verbose c).
Proof.
  assert (flag_values "--verbose" (seen cwd exec c)
          = replicate (Z.to_nat (verbose c)) None) as H
    by (flag_values_at; reflexivity).
  split; [done|]. rewrite H, length_replicate. lia.
Qed.

(** X4. The extra metadata is flattened to one [--extra-meta] per entry, in
    the order of the dict, each with the single shell-quoted token
    [key=value]; [None] and the empty dict alike give none. *)
Theorem extra_meta_flattened cwd exec c :
  flag_values "--extra-meta" (seen cwd exec c)
  = (λ e : string * string, Some (AStr (shlex_quote (e.1 +:+ "=" +:+ e.2))))
      <$> default [] (extra_meta c).
Proof. flag_values_at. by destruct (extra_meta c). Qed.

(** X5. The mandatory options other than [--test] are each seen once, with
    the value of the configuration; the recipe and the output directory are
    passed as resolved paths, and none of these values is quoted. *)
Theorem mandatory_options_once cwd exec c :
  flag_values "--recipe" (seen cwd exec c)
    = [Some (APath (joinpath cwd (recipe c)))]
  ∧ flag_values "--build-platform" (seen cwd exec c)
    = [Some (AStr (build_platform c))]
  ∧ flag_values "--host-platform" (seen cwd exec c)
    = [Some (AStr (host_platform c))]
  ∧ flag_values "--log-style" (seen cwd exec c) = [Some (AStr (log_style c))]
  ∧ flag_values "--color" (seen cwd exec c) = [Some (AStr (color c))]
  ∧ flag_values "--output-dir" (seen cwd exec c)
    = [Some (APath (joinpath cwd (output_dir c)))]
  ∧ flag_values "--skip-existing" (seen cwd exec c)
    = [Some (AStr (skip_existing c))].
Proof. repeat split; flag_values_at; reflexivity. Qed.

(** ** Quoting *)

Lemma chars_of_chars l : chars (of_chars l) = l.
Proof. apply String.list_ascii_of_string_of_list_ascii. Qed.

Lemma of_chars_chars s : of_chars (chars s) = s.
Proof. apply String.string_of_list_ascii_of_string. Qed.

Lemma chars_nil s : chars s = [] → s = "".
Proof. by destruct s. Qed.

(** The decimal form of an integer is made of digits and at most a sign. *)
Section Decimal.
Variable P : ascii → bool.
Hypothesis P_digit : ∀ d, P (pretty_N_char d) = true.
Hypothesis P_minus : P "-" = true.

Lemma pretty_N_go_chars x s :
  forallb P (chars s) = true → forallb P (chars (pretty_N_go x s)) = true.
Proof.
  revert s. induction (N.lt_wf_0 x) as [x _ IH]. intros s Hs.
  destruct (decide (x = 0)%N) as [->|Hx]; [by rewrite pretty_N_go_0|].
  rewrite pretty_N_go_step by lia.
  apply IH; [apply N.div_lt; lia|].
  change (chars (String ?a ?t)) with (a :: chars t).
  cbn [forallb]. by rewrite P_digit, Hs.
Qed.

Lemma zero_chars : forallb P (chars "0") = true.
Proof. pose proof (P_digit 0) as H0. cbn in *. by rewrite H0. Qed.

Lemma pretty_N_chars (x : N) : forallb P (chars (pretty x)) = true.
Proof.
  unfold pretty, pretty_N. case_decide; [apply zero_chars|].
  by apply pretty_N_go_chars.
Qed.

Lemma pretty_Z_chars (z : Z) : forallb P (chars (pretty z)) = true.
Proof.
  destruct z as [|p|p]; unfold pretty, pretty_Z.
  - apply zero_chars.
  - apply pretty_N_chars.
  - rewrite chars_append, forallb_app. apply andb_true_iff. split.
    + cbn. by rewrite P_minus.
    + apply pretty_N_chars.
Qed.
End Decimal.

Lemma pretty_N_go_nonempty x s : s ≠ "" → pretty_N_go x s ≠ "".
Proof.
  revert s. induction (N.lt_wf_0 x) as [x _ IH]. intros s Hs.
  destruct (decide (x = 0)%N) as [->|Hx]; [by rewrite pretty_N_go_0|].
  rewrite pretty_N_go_step by lia. apply IH; [apply N.div_lt; lia|done].
Qed.

Lemma pretty_Z_nonempty (z : Z) : pretty z ≠ "".
Proof.
  assert (∀ x : N, pretty x ≠ "") as HN.
  { intros x. unfold pretty, pretty_N. case_decide; [done|].
    rewrite pretty_N_go_step by lia. by apply pretty_N_go_nonempty. }
  destruct z as [|p|p]; unfold pretty, pretty_Z; [done|apply HN|done].
Qed.

Lemma safe_digit d : shlex_safe_char (pretty_N_char d) = true.
Proof. unfold pretty_N_char. by repeat case_match. Qed.

Lemma length_replace_quote l : (length l ≤ length (replace_quote l))%nat.
Proof.
  induction l as [|c l IH]; [done|]. cbn [replace_quote].
  destruct (Ascii.eqb c squote); cbn [length]; lia.
Qed.

Lemma optional_token_literal a :
  py_str a ≠ "" ∧ forallb shlex_safe_char (chars (py_str a)) = true →
  optional_token a = py_str a.
Proof.
  unfold optional_token, shlex_quote. set (s := py_str a).
  intros [Hne Hsafe]. destruct (chars s) as [|c l] eqn:E.
  - by apply chars_nil in E.
  - by rewrite Hsafe.
Qed.

(** X6. The token emitted for an optional value is the string form of the
    value exactly when that form is not empty and made of letters, digits
    and [_@%+=:,./-] only; any other value reaches the executable changed,
    wrapped in quotes, since no shell stands between the two. *)
Theorem optional_token_literal_iff a :
  optional_token a = py_str a
  ↔ py_str a ≠ "" ∧ forallb shlex_safe_char (chars (py_str a)) = true.
Proof.
  split; [|apply optional_token_literal].
  unfold optional_token, shlex_quote. set (s := py_str a).
  destruct (chars s) as [|c l] eqn:E.
  - apply chars_nil in E. rewrite E. discriminate.
  - destruct (forallb shlex_safe_char (c :: l)) eqn:F.
    + intros _. split; [|done]. intros Hs. by rewrite Hs in E.
    + intros H. apply (f_equal chars) in H.
      rewrite chars_of_chars, E in H. apply (f_equal length) in H.
      pose proof (length_replace_quote (c :: l)) as Hlen.
      cbn [length] in H. rewrite length_app in H. cbn [length] in *. lia.
Qed.

Lemma quote_decimal (z : Z) : shlex_quote (pretty z) = pretty z.
Proof.
  apply (optional_token_literal (SInt z)). cbn [py_str]. split.
  - apply pretty_Z_nonempty.
  - apply pretty_Z_chars; [apply safe_digit|done].
Qed.

(** X7. An integer option is passed in plain decimal, sign included:
    quoting never changes it.  So [--compression-threads] is seen with the
    decimal text of the number whenever it is set. *)
Theorem integer_values_plain cwd exec c :
  (∀ z, optional_token (SInt z) = pretty z)
  ∧ flag_values "--compression-threads" (seen cwd exec c)
    = match compression_threads c with
      | Some n => [Some (AStr (pretty n))]
      | None => []
      end.
Proof.
  split; [exact quote_decimal|]. flag_values_at.
  destruct (compression_threads c) as [n|]; [|reflexivity].
  cbn [fmap option_fmap option_map py_str]. by rewrite quote_decimal.
Qed.

(** ** More of the process runner and of the driver *)

Section DriverFacts.
Variable cwd : path.
Variable clk : clock.
Variable yaml : string → result string.
Variable fnm : string → string → bool.
Variable prefix : option string.
Variable popen : list arg → M (string * string * Z).
Variable parse : string → result (list json).
Variable dumps : json → string.
Variable mktemp : FS → path.
Variable index : option (string → M unit).

(** X8. [rattler_build] starts no process unless the environment names a
    prefix and the executable is a file below it: without [CONDA_PREFIX], or
    with an empty one, and when [bin/rattler-build] is missing, it raises
    [FileNotFoundError] and leaves the disk alone, whatever the
    configuration and whatever the process would have done. *)
Theorem rattler_build_needs_executable c fs :
  (prefix = None ∨ prefix = Some "" →
   rattler_build cwd prefix popen parse c fs
   = (fs, Err (FileNotFoundError "No conda prefix found.")))
  ∧ (∀ p, prefix = Some p → p ≠ "" →
          is_file fs (joinpath (joinpath (joinpath cwd p) "bin") "rattler-build")
          = false →
          rattler_build cwd prefix popen parse c fs
          = (fs, Err (FileNotFoundError "rattler-build not found."))).
Proof.
  unfold rattler_build. split.
  - by intros [-> | ->].
  - intros p -> Hp Hfile. destruct p as [|a p]; [done|].
    unfold bind at 1, gets. by rewrite Hfile.
Qed.

(** X9. Once the process has run, [rattler_build] looks at its output
    stream first: anything written there is an error, whatever the exit
    code, and the log is not even parsed.  Otherwise the parsed log is
    returned together with the exit code, which is not examined: a failed
    build is a normal return.  The disk is as the process left it. *)
Theorem rattler_build_streams c fs p fs1 out err code :
  prefix = Some p → p ≠ "" →
  let exec := joinpath (joinpath (joinpath cwd p) "bin") "rattler-build" in
  is_file fs exec = true →
  popen (build_args cwd exec c) fs = (fs1, Ok (out, err, code)) →
  rattler_build cwd prefix popen parse c fs
  = (fs1,
     if String.eqb out "" then
       match parse err with
       | Ok logs => Ok (logs, code)
       | Err e => Err e
       end
     else Err (RuntimeError "stdout should be empty")).
Proof.
  intros -> Hp exec Hfile Hpopen. unfold rattler_build.
  destruct p as [|a p]; [done|]. fold exec.
  unfold bind at 1, gets. rewrite Hfile. cbn [negb].
  unfold bind at 1. rewrite Hpopen.
  destruct (String.eqb out ""); cbn [negb]; [|done].
  unfold bind, lift, ret. by destruct (parse err).
Qed.

(** X10. The two tables are consulted before anything else happens: when
    the value of [test] or of [skip_existing] is no key of its table, the
    error of the lookup is raised with the disk untouched, whatever the
    environment and the process. *)
Theorem bad_option_rejected_first o e fs :
  translate o = Err e →
  optimized_rattler_build cwd clk yaml fnm prefix popen parse dumps mktemp index
    o fs = (fs, Err e).
Proof.
  intros H. rewrite driver_delegates. unfold bind at 1, lift. by rewrite H.
Qed.

(** X11. What the driver returns normally: a package together with exit
    code 0, or no package together with a non-zero code, and the latter only
    when [check] is off.  The log and the code are those of
    [rattler_build]. *)
Theorem driver_return_shape o fs fs' pkg logs code :
  optimized_rattler_build cwd clk yaml fnm prefix popen parse dumps mktemp index
    o fs = (fs', Ok (pkg, logs, code)) →
  ((code = 0 ∧ is_Some pkg) ∨ (code ≠ 0 ∧ pkg = None ∧ o_check o = false))
  ∧ ∃ c fs1, translate o = Ok c
             ∧ rattler_build cwd prefix popen parse c fs = (fs1, Ok (logs, code)).
Proof.
  rewrite driver_delegates. intros H.
  apply bind_ok_inv in H as (fs0 & c & Ht & H).
  unfold lift in Ht. injection Ht as <- Ht.
  apply bind_ok_inv in H as (fs1 & [logs' code'] & Hb & H).
  destruct (Z.eqb_spec code' 0) as [->|Hne].
  - apply bind_ok_inv in H as (fs2 & p & _ & H).
    apply bind_ok_inv in H as (fs3 & [] & _ & H).
    injection H as <- <- <- <-. split; [left; eauto|eauto].
  - destruct (o_check o) eqn:Hc.
    + apply bind_ok_inv in H as (fs2 & name & _ & H). discriminate.
    + injection H as <- <- <- <-. split; [right; eauto|eauto].
Qed.

(** X12. On exit code 0 the driver returns what [_clean_output] finds on the
    disk the build left: its failure is the driver's failure and the index
    is not touched; its package is returned with the log and the code when
    indexing is off or [conda_index] cannot be imported, which is no
    error. *)
Theorem zero_exit o c fs fs1 logs :
  translate o = Ok c →
  rattler_build cwd prefix popen parse c fs = (fs1, Ok (logs, 0)) →
  let clean := _clean_output cwd clk yaml fnm (o_recipe o) (o_output_dir o)
                 (o_package_format o) (o_skip_existing o) logs
                 (o_clean_bld_cache o) (o_clean_src_cache o) fs1 in
  let run := optimized_rattler_build cwd clk yaml fnm prefix popen parse dumps
               mktemp index o fs in
  (∀ e, clean.2 = Err e → run = (clean.1, Err e))
  ∧ (∀ pkg, clean.2 = Ok pkg → o_run_conda_index o = false ∨ index = None →
            run = (clean.1, Ok (Some pkg, logs, 0))).
Proof.
  intros Ht Hb clean run.
  assert (run = match clean with
                | (fs2, Ok pkg) =>
                    bind (when (o_run_conda_index o)
                            (match index with
                             | Some update_index => update_index (o_output_dir o)
                             | None => ret tt
                             end)) (λ _, ret (Some pkg, logs, 0)) fs2
                | (fs2, Err e) => (fs2, Err e)
                end) as ->.
  { subst run clean. rewrite driver_delegates.
    rewrite (bind_ok _ _ fs fs c) by (unfold lift; by rewrite Ht).
    rewrite (bind_ok _ _ _ _ _ Hb). cbn [Z.eqb]. unfold bind at 1.
    by destruct (_clean_output _ _ _ _ _ _ _ _ _ _ _ _) as [fs2 [pkg|e]]. }
  destruct clean as [fs2 [pkg|e]]; cbn [fst snd]; split.
  - discriminate.
  - intros ? [= <-] [Hoff | Hnone].
    + rewrite Hoff. reflexivity.
    + rewrite Hnone. destruct (o_run_conda_index o); reflexivity.
  - by intros ? [= <-].
  - discriminate.
Qed.
End DriverFacts.


(** ** More of the cleaner *)

Lemma iterdir_empty fs p :
  iterdir fs p = ∅ ↔ ∀ c, fs !! (p ++ [c]) = None.
Proof.
  unfold iterdir. rewrite map_empty. split.
  - intros H c. specialize (H (p ++ [c])).
    apply map_lookup_filter_None in H as [H|H]; [done|].
    destruct (fs !! (p ++ [c])) as [n|] eqn:E; [|done].
    exfalso. apply (H n eq_refl). cbn. apply parent_Some. eauto.
  - intros H k. apply map_lookup_filter_None. right.
    intros n Hk Hp. cbn in Hp. apply parent_Some in Hp as [c ->].
    by rewrite H in Hk.
Qed.

Lemma remove_empty_folder_eq p fs :
  _remove_empty_folder p fs
  = (if is_dir fs p && bool_decide (iterdir fs p = ∅) then delete p fs else fs,
     Ok tt).
Proof.
  unfold _remove_empty_folder, bind, gets, when, modify, ret, rmdir.
  by destruct (is_dir fs p && _).
Qed.

(** X14. [_remove_empty_folder] never fails and never touches another path.
    It leaves the folder alone when it still has an entry and when the path
    is not a directory (a file, or nothing at all); it removes an empty
    directory; and a second call right after the first finds nothing to do
    and is no error. *)
Theorem remove_empty_folder_spec p fs :
  let after := (_remove_empty_folder p fs).1 in
  (_remove_empty_folder p fs).2 = Ok tt
  ∧ (∀ q, q ≠ p → after !! q = fs !! q)
  ∧ (∀ c, is_Some (fs !! (p ++ [c])) → after = fs)
  ∧ (is_dir fs p = false → after = fs)
  ∧ (is_dir fs p = true → (∀ c, fs !! (p ++ [c]) = None) → after !! p = None)
  ∧ _remove_empty_folder p after = (after, Ok tt).
Proof.
  intros after. subst after.
  pose proof (remove_empty_folder_idempotent p fs) as Htwice. revert Htwice.
  rewrite (remove_empty_folder_eq p fs). cbn [fst snd]. intros Htwice.
  split; [done|]. split; [|split; [|split; [|split; [|exact Htwice]]]].
  - intros q Hq. destruct (_ && _); [|done]. by rewrite lookup_delete_ne.
  - intros c [n Hc]. rewrite bool_decide_eq_false_2, andb_false_r; [done|].
    rewrite iterdir_empty. intros H. by rewrite H in Hc.
  - by intros ->.
  - intros -> Hempty. rewrite bool_decide_eq_true_2 by by apply iterdir_empty.
    apply lookup_delete_eq.
Qed.

(** Framing: which paths a computation can change. *)
Lemma preserves_ret {A} (Q : path → Prop) (a : A) : preserves Q (ret a).
Proof. by intros fs q _. Qed.

Lemma preserves_raise {A} (Q : path → Prop) e : preserves Q (@raise A e).
Proof. by intros fs q _. Qed.

Lemma preserves_lift {A} (Q : path → Prop) (r : result A) : preserves Q (lift r).
Proof. by intros fs q _. Qed.

Lemma preserves_gets {A} (Q : path → Prop) (f : FS → A) : preserves Q (gets f).
Proof. by intros fs q _. Qed.

Lemma preserves_bind {A B} (Q : path → Prop) (m : M A) (k : A → M B) :
  preserves Q m → (∀ a, preserves Q (k a)) → preserves Q (bind m k).
Proof.
  intros Hm Hk fs q Hq. unfold bind. specialize (Hm fs q Hq).
  destruct (m fs) as [fs1 [a|e]]; [|done].
  cbn in Hm. rewrite <- Hm. by apply Hk.
Qed.

Lemma preserves_when (Q : path → Prop) b (m : M unit) : (b = true → preserves Q m) → preserves Q (when b m).
Proof. destruct b; [auto|]. intros _. apply preserves_ret. Qed.

Lemma preserves_if {A} (Q : path → Prop) (b : bool) (m1 m2 : M A) :
  preserves Q m1 → preserves Q m2 → preserves Q (if b then m1 else m2).
Proof. by destruct b. Qed.

Lemma preserves_remove_empty_folder (Q : path → Prop) p :
  Q p → preserves Q (_remove_empty_folder p).
Proof.
  intros Hp fs q Hq. rewrite remove_empty_folder_eq. cbn.
  destruct (_ && _); [|done]. apply lookup_delete_ne. by intros ->.
Qed.

Lemma preserves_rmtree (Q : path → Prop) p :
  (∀ q, p `prefix_of` q → Q q) → preserves Q (modify (λ fs, rmtree fs p)).
Proof.
  intros HQ fs q Hq. unfold modify, rmtree. cbn.
  destruct (fs !! q) as [n|] eqn:E.
  - apply map_lookup_filter_Some. split; [done|]. cbn. intros H.
    by apply Hq, HQ.
  - apply map_lookup_filter_None. by left.
Qed.

Lemma preserves_locate_package fnm (Q : path → Prop) out variant format :
  preserves Q (locate_package fnm out variant format).
Proof.
  unfold locate_package. apply preserves_bind.
  - repeat apply preserves_if; auto using preserves_ret, preserves_raise.
  - intros ext. apply preserves_bind.
    + unfold rglob. apply preserves_if; [apply preserves_raise|].
      apply preserves_if; [apply preserves_raise|apply preserves_gets].
    + intros [|p [|q l]]; auto using preserves_ret, preserves_raise.
Qed.

Lemma locate_package_fs fnm out variant format fs :
  (locate_package fnm out variant format fs).1 = fs.
Proof.
  apply map_eq. intros q.
  apply (preserves_locate_package fnm (λ _, False)). tauto.
Qed.

Lemma preserves_clean_source cwd logs cs (Q : path → Prop) :
  (∀ q, cs = true → source_path cwd logs = Some q → Q q) →
  preserves Q (clean_source cwd logs cs).
Proof.
  intros HQ fs q Hq. unfold clean_source, bind at 1, lift.
  destruct (next_src_msg (drop 2 logs)) as [msg|e] eqn:Em; [|done].
  unfold bind at 1.
  destruct (shlex_split (removeprefix msg SRC_PREFIX)) as [[|tok toks]|e] eqn:Et;
    try done.
  unfold bind, gets. destruct (is_file fs (joinpath cwd tok)); cbn; [|done].
  destruct cs; cbn; [|done]. unfold unlink. apply lookup_delete_ne.
  intros <-. apply Hq, HQ; [done|]. unfold source_path. by rewrite Em, Et.
Qed.

Section CleanerFacts.
Variable cwd : path.
Variable clk : clock.
Variable yaml : string → result string.
Variable fnm : string → string → bool.

Lemma preserves_cleaning s format logs ex cb cs :
  preserves (removable cwd s logs cb cs)
            (cleaning cwd fnm s format logs ex cb cs).
Proof.
  unfold cleaning. apply preserves_bind.
  { apply preserves_when. intros Hns. apply preserves_clean_source.
    intros q -> Hq. right. eauto. }
  intros _. apply preserves_bind.
  { apply preserves_when. intros ->. apply preserves_remove_empty_folder.
    right. eauto. }
  intros _. apply preserves_bind; [|intros _; apply preserves_locate_package].
  apply preserves_when. intros ->. apply preserves_bind.
  - apply preserves_when. intros _. apply preserves_rmtree.
    intros q Hq. left. eauto.
  - intros _. apply preserves_remove_empty_folder. left. eauto.
Qed.

(** A failure before the deletions leaves the disk as it was. *)
Lemma clean_output_early_error recipe out format skip logs cb cs fs e :
  derive_session cwd clk yaml recipe out skip logs fs = Err e →
  _clean_output cwd clk yaml fnm recipe out format skip logs cb cs fs
  = (fs, Err e).
Proof. intros H. by rewrite clean_output_eq, H. Qed.

(** X15. [_clean_output] never creates an entry and never changes one:
    whatever exists afterwards existed before, with the same content. *)
Theorem clean_output_only_removes recipe out format skip logs cb cs fs q n :
  (_clean_output cwd clk yaml fnm recipe out format skip logs cb cs fs).1 !! q
    = Some n →
  fs !! q = Some n.
Proof.
  intros H. eapply lookup_weaken; [exact H|]. apply shrinks_clean_output.
Qed.

(** X16. [_clean_output] removes nothing but what it is asked to clean:
    every path that is neither the build directory or below it or the
    [bld] folder (with [clean_bld_cache]), nor the [src_cache] folder or the
    announced source file of a build that was not skipped (with
    [clean_src_cache]), is after the call what it was before, whether the
    call returns or raises. *)
Theorem clean_output_frame recipe out format skip logs cb cs fs s q :
  derive_session cwd clk yaml recipe out skip logs fs = Ok s →
  ¬ removable cwd s logs cb cs q →
  (_clean_output cwd clk yaml fnm recipe out format skip logs cb cs fs).1 !! q
  = fs !! q.
Proof.
  intros Hs Hq. rewrite clean_output_eq, Hs.
  destruct (negb _); [done|]. by apply preserves_cleaning.
Qed.

(** X17. With both cleaning flags off [_clean_output] only looks: the disk
    is left exactly as it was, whether the call returns or raises. *)
Theorem clean_output_keeps_all recipe out format skip logs fs :
  (_clean_output cwd clk yaml fnm recipe out format skip logs false false fs).1
  = fs.
Proof.
  rewrite clean_output_eq.
  destruct (derive_session _ _ _ _ _ _ _ _) as [s|e] eqn:Hs; [|done].
  destruct (negb _); [done|].
  apply map_eq. intros q. apply preserves_cleaning.
  intros [[? _]|[? _]]; discriminate.
Qed.
End CleanerFacts.

(** ** Reading the log *)

Lemma removeprefix_app p v : removeprefix (p +:+ v) p = v.
Proof.
  unfold removeprefix, startswith.
  assert (String.prefix p (p +:+ v) = true
          ∧ drop_string (String.length p) (p +:+ v) = v) as [-> ->]; [|done].
  induction p as [|a p [IH1 IH2]].
  - split; [by destruct v|done].
  - change (String a p +:+ v) with (String a (p +:+ v)). cbn.
    by destruct (ascii_dec a a).
Qed.

Lemma json_is_str_true m text : json_is_str m text = true ↔ m = JStr text.
Proof.
  destruct m; cbn; try (split; [discriminate|congruence]).
  rewrite String.eqb_eq. split; congruence.
Qed.

(** X18. The generator of lines 123-125 stops at the first message with the
    source-copy prefix: the lines after it are never looked at, whatever
    they hold.  A line before it that has no message is an error even
    though a later line would have matched. *)
Theorem next_src_msg_first pre line post :
  Forall (λ l, ∃ m, _get_msg l = Ok (JStr m)
                    ∧ startswith m SRC_PREFIX = false) pre →
  (∀ msg, _get_msg line = Ok (JStr msg) → startswith msg SRC_PREFIX = true →
          next_src_msg (pre ++ line :: post) = Ok msg)
  ∧ (∀ e, _get_msg line = Err e →
          next_src_msg (pre ++ line :: post) = Err e).
Proof.
  induction 1 as [|l pre (m & Hm & Hp) _ [IH1 IH2]].
  - split.
    + intros msg Hmsg Hpre. cbn. rewrite Hmsg. cbn. by rewrite Hpre.
    + intros e He. cbn. by rewrite He.
  - split.
    + intros msg Hmsg Hpre. cbn. rewrite Hm. cbn. rewrite Hp. by apply IH1.
    + intros e He. cbn. rewrite Hm. cbn. rewrite Hp. by apply IH2.
Qed.

Section SessionFacts.
Variable cwd : path.
Variable clk : clock.
Variable yaml : string → result string.
Variable fnm : string → string → bool.

Lemma derive_session_recipe recipe out skip logs fs fs1 :
  fs1 !! (joinpath cwd recipe ++ ["recipe.yaml"])
    = fs !! (joinpath cwd recipe ++ ["recipe.yaml"]) →
  derive_session cwd clk yaml recipe out skip logs fs1
  = derive_session cwd clk yaml recipe out skip logs fs.
Proof. intros H. unfold derive_session, _get_package_name. by rewrite H. Qed.

(** The session depends on the clock through the zone and through the
    offset in force at the call. *)
Lemma get_local_ts_same_zone (k k' : clock) iso :
  utcoffset k' = utcoffset k →
  utcoffset k' (now k') = utcoffset k (now k) →
  _get_local_ts k' iso = _get_local_ts k iso.
Proof.
  intros Hzone Hnow. unfold _get_local_ts, mktime. by rewrite Hnow, Hzone.
Qed.

Lemma derive_session_same_zone (clk' : clock) recipe out skip logs fs :
  utcoffset clk' = utcoffset clk →
  utcoffset clk' (now clk') = utcoffset clk (now clk) →
  derive_session cwd clk' yaml recipe out skip logs fs
  = derive_session cwd clk yaml recipe out skip logs fs.
Proof.
  intros Hzone Hnow. unfold derive_session.
  destruct (list_get logs 1) as [line|]; cbn [rbind]; [|reflexivity].
  destruct (_get_package_name _ _ _); cbn [rbind]; [|reflexivity].
  destruct (getitem line "timestamp") as [iso|]; cbn [rbind]; [|reflexivity].
  rewrite (get_local_ts_same_zone clk clk' iso Hzone Hnow). reflexivity.
Qed.

Lemma derive_session_recipe_file recipe out skip logs fs s :
  derive_session cwd clk yaml recipe out skip logs fs = Ok s →
  ∃ text, fs !! (joinpath cwd recipe ++ ["recipe.yaml"]) = Some (File text).
Proof.
  unfold derive_session, _get_package_name.
  destruct (list_get logs 1); [|discriminate]. cbn [rbind].
  destruct (fs !! _) as [[|text]|]; [discriminate|eauto|discriminate].
Qed.

(** X19. How the log is read (lines 103-112).  The variant is the message
    of the second event without its [Build variant: ] prefix, and the build
    counts as skipped exactly when [skip_existing] is truthy and the last
    event's message is [Skipping build for ] followed by that variant.
    With [skip_existing] off a build never counts as skipped, whatever the
    log says. *)
Theorem skip_detection recipe out skip logs fs s line v :
  logs !! 1%nat = Some line →
  _get_msg line = Ok (JStr (BLD_PREFIX +:+ v)) →
  derive_session cwd clk yaml recipe out skip logs fs = Ok s →
  s_variant s = v
  ∧ (s_not_skipped s = false
     ↔ truthy skip = true
       ∧ ∃ l, last logs = Some l
              ∧ _get_msg l = Ok (JStr ("Skipping build for " +:+ v))).
Proof.
  intros Hline Hmsg. unfold derive_session, list_get. rewrite Hline.
  cbn [rbind].
  destruct (_get_package_name _ _ _) as [package|]; [|discriminate].
  cbn [rbind].
  destruct (getitem line "timestamp") as [iso|]; [|discriminate].
  cbn [rbind].
  destruct (_get_local_ts clk iso) as [ts|]; [|discriminate].
  cbn [rbind]. rewrite Hmsg. cbn [rbind as_str]. rewrite removeprefix_app.
  destruct (truthy skip).
  - unfold list_last. destruct (last logs) as [l|]; [|discriminate].
    cbn [rbind]. destruct (_get_msg l) as [m|] eqn:Hm; [|discriminate].
    cbn [rbind]. intros [= <-]. cbn [s_variant s_not_skipped].
    split; [done|]. rewrite negb_false_iff, json_is_str_true. split.
    + intros ->. eauto.
    + intros [_ (l' & [= <-] & Hl')]. congruence.
  - intros [= <-]. cbn [s_variant s_not_skipped]. split; [done|].
    split; [discriminate|]. by intros [? _].
Qed.

(** X20. The recipe is read before anything in the log is examined: with
    at least two events and a recipe directory that holds no [recipe.yaml],
    [_clean_output] fails with [FileNotFoundError] and the disk is left as
    it was, whatever the events hold. *)
Theorem recipe_read_first recipe out format skip logs cb cs fs :
  (2 ≤ length logs)%nat →
  is_dir fs (joinpath cwd recipe) = true →
  fs !! (joinpath cwd recipe ++ ["recipe.yaml"]) = None →
  ∃ m, _clean_output cwd clk yaml fnm recipe out format skip logs cb cs fs
       = (fs, Err (FileNotFoundError m)).
Proof.
  intros Hlen _ Hnone. rewrite clean_output_eq.
  unfold derive_session, list_get, _get_package_name.
  destruct (lookup_lt_is_Some_2 logs 1%nat) as [line ->]; [lia|].
  cbn [rbind]. rewrite Hnone. cbn. eauto.
Qed.

(** X21. The package format is examined last.  With a format other than
    [tar-bz2] and [conda] the call fails with [ValueError], but only after
    the deletions: when a call with some format returns, the same call with
    an unknown format leaves the very same disk behind. *)
Theorem unknown_format_fails_late recipe out f g skip logs cb cs fs fs' p :
  f ≠ "tar-bz2" → f ≠ "conda" →
  _clean_output cwd clk yaml fnm recipe out g skip logs cb cs fs = (fs', Ok p) →
  _clean_output cwd clk yaml fnm recipe out f skip logs cb cs fs
  = (fs', Err (ValueError ("Unknown package-format: " +:+ f))).
Proof.
  intros Hf1 Hf2. rewrite !clean_output_eq.
  destruct (derive_session _ _ _ _ _ _ _ _) as [s|]; [|discriminate].
  destruct (negb _); [discriminate|].
  unfold cleaning. intros H.
  apply bind_ok_inv in H as (fsA & [] & HA & H).
  apply bind_ok_inv in H as (fsB & [] & HB & H).
  apply bind_ok_inv in H as (fsC & [] & HC & H).
  rewrite (bind_ok _ _ _ _ _ HA), (bind_ok _ _ _ _ _ HB), (bind_ok _ _ _ _ _ HC).
  pose proof (locate_package_fs fnm (s_out s) (s_variant s) g fsC) as Hfs.
  rewrite H in Hfs. cbn in Hfs. subst fs'.
  unfold locate_package. apply bind_err.
  apply String.eqb_neq in Hf1, Hf2. by rewrite Hf1, Hf2.
Qed.
End SessionFacts.

(** ** Where the caches are *)

Lemma joinpath_name base name :
  slash_free name = true → name ≠ "" → name ≠ "." → name ≠ ".." →
  joinpath base name = base ++ [name].
Proof.
  intros Hfree H1 H2 H3. unfold joinpath. rewrite parts_plain by done.
  assert (is_absolute name = false) as ->.
  { destruct name as [|c name]; [done|]. unfold slash_free in Hfree.
    cbn in Hfree. apply andb_true_iff in Hfree as [Hc _].
    cbn. by apply negb_true_iff in Hc. }
  cbn [walk]. by rewrite (proj2 (String.eqb_neq name "..")).
Qed.

Lemma joinpath_bld base : joinpath base "bld" = base ++ ["bld"].
Proof. by apply joinpath_name. Qed.

Lemma joinpath_src_cache base : joinpath base "src_cache" = base ++ ["src_cache"].
Proof. by apply joinpath_name. Qed.

Lemma slash_free_app a b :
  slash_free (a +:+ b) = slash_free a && slash_free b.
Proof. unfold slash_free. by rewrite chars_append, forallb_app. Qed.

Lemma slash_free_pretty (z : Z) : slash_free (pretty z) = true.
Proof.
  apply (pretty_Z_chars (λ c, negb (Ascii.eqb c slash))); [|done].
  intros d. unfold pretty_N_char. by repeat case_match.
Qed.

Section CacheFacts.
Variable cwd : path.
Variable clk : clock.
Variable yaml : string → result string.
Variable fnm : string → string → bool.

(** X22. Where the build directory is looked for (line 107): for a package
    name without a slash it is the entry
    [rattler-build_<package>_<timestamp>] directly below [bld] in the
    resolved output directory, the timestamp being the local timestamp of
    the second event written in decimal. *)
Theorem build_dir_location recipe out skip logs fs s text package :
  derive_session cwd clk yaml recipe out skip logs fs = Ok s →
  fs !! (joinpath cwd recipe ++ ["recipe.yaml"]) = Some (File text) →
  yaml text = Ok package →
  slash_free package = true →
  s_out s = joinpath cwd out
  ∧ ∃ line iso ts,
      logs !! 1%nat = Some line
      ∧ getitem line "timestamp" = Ok iso
      ∧ _get_local_ts clk iso = Ok ts
      ∧ s_bld_dir s
        = joinpath cwd out
          ++ ["bld"; "rattler-build_" +:+ package +:+ "_" +:+ pretty ts].
Proof.
  intros Hs Hfile Hpkg Hfree. revert Hs.
  unfold derive_session, list_get, _get_package_name. rewrite Hfile, Hpkg.
  destruct (logs !! 1%nat) as [line|]; [|discriminate]. cbn [rbind].
  destruct (getitem line "timestamp") as [iso|] eqn:Hiso; [|discriminate].
  cbn [rbind].
  destruct (_get_local_ts clk iso) as [ts|] eqn:Hts; [|discriminate].
  cbn [rbind].
  destruct (_get_msg line) as [m|]; [|discriminate]. cbn [rbind].
  destruct (as_str m) as [vmsg|]; [|discriminate]. cbn [rbind].
  destruct (if truthy skip then _ else _) as [ns|]; [|discriminate].
  cbn [rbind]. intros [= <-]. cbn [s_out s_bld_dir].
  split; [done|]. exists line, iso, ts.
  split; [done|]. split; [done|]. split; [done|].
  rewrite joinpath_bld, joinpath_name; [by rewrite <- app_assoc|..].
  - change ("rattler-build_" +:+ package +:+ "_" +:+ pretty ts)
      with ("rattler-build_" +:+ (package +:+ ("_" +:+ pretty ts))).
    rewrite !slash_free_app, Hfree, slash_free_pretty. done.
  - done.
  - done.
  - done.
Qed.
End CacheFacts.

(** ** A skipped build *)

Lemma is_dir_mono fs1 fs p :
  fs1 ⊆ fs → is_dir fs1 p = true → is_dir fs p = true.
Proof.
  intros Hsub. unfold is_dir.
  destruct (fs1 !! p) as [[|text]|] eqn:E; try done.
  by rewrite (lookup_weaken _ _ _ _ E Hsub).
Qed.

Lemma remove_empty_folder_keeps_files p fs q text :
  fs !! q = Some (File text) →
  (_remove_empty_folder p fs).1 !! q = Some (File text).
Proof.
  intros Hq. rewrite remove_empty_folder_eq. cbn [fst].
  destruct (is_dir fs p) eqn:Hd; cbn [andb]; [|done].
  destruct (bool_decide _); [|done].
  rewrite lookup_delete_ne; [done|].
  intros <-. unfold is_dir in Hd. by rewrite Hq in Hd.
Qed.

(** Pruning [q] does not make a folder [p] prunable that was not, unless
    [q] lies directly in [p]. *)
Lemma remove_empty_folder_settled p q fs :
  (∀ c, q ≠ p ++ [c]) →
  (_remove_empty_folder p fs).1 = fs →
  (_remove_empty_folder p (_remove_empty_folder q fs).1).1
  = (_remove_empty_folder q fs).1.
Proof.
  intros Hpq. rewrite (remove_empty_folder_eq q fs). cbn [fst].
  destruct (is_dir fs q && _); [|done].
  rewrite !remove_empty_folder_eq. cbn [fst]. intros Hp.
  destruct (is_dir (delete q fs) p) eqn:Hd; cbn [andb]; [|done].
  destruct (bool_decide (iterdir (delete q fs) p = ∅)) eqn:Hempty; [|done].
  apply bool_decide_eq_true_1 in Hempty. exfalso.
  assert (is_dir fs p = true) as Hd'
    by (eapply is_dir_mono; [apply delete_subseteq|exact Hd]).
  rewrite Hd' in Hp. cbn [andb] in Hp.
  assert (iterdir fs p = ∅) as Hempty'.
  { apply iterdir_empty. intros c.
    rewrite iterdir_empty in Hempty. specialize (Hempty c).
    by rewrite lookup_delete_ne in Hempty. }
  rewrite bool_decide_eq_true_2 in Hp by done.
  assert (delete p fs !! p = fs !! p) as Hlook by by rewrite Hp.
  rewrite lookup_delete_eq in Hlook. unfold is_dir in Hd'.
  by rewrite <- Hlook in Hd'.
Qed.

Lemma when_remove_eq b p fs :
  when b (_remove_empty_folder p) fs
  = (if b then (_remove_empty_folder p fs).1 else fs, Ok tt).
Proof. destruct b; [|done]. cbn [when]. by rewrite remove_empty_folder_eq. Qed.

Section SkippedFacts.
Variable cwd : path.
Variable clk : clock.
Variable yaml : string → result string.
Variable fnm : string → string → bool.

(** X23. A skipped build can be reconciled again.  When a call for a build
    that counts as skipped returns the package, it has deleted no file (at
    most the empty [src_cache] and [bld] folders), and the same call made
    later on the disk it leaves returns the same package and changes
    nothing, provided the zone has at the second call the offset it had at
    the first. *)
Theorem skipped_run_repeatable (clk' : clock)
    recipe out format skip logs cb cs fs fs' s p :
  let run k := _clean_output cwd k yaml fnm recipe out format skip logs cb cs in
  utcoffset clk' = utcoffset clk →
  utcoffset clk' (now clk') = utcoffset clk (now clk) →
  derive_session cwd clk yaml recipe out skip logs fs = Ok s →
  s_not_skipped s = false →
  run clk fs = (fs', Ok p) →
  run clk' fs' = (fs', Ok p)
  ∧ ∀ q text, fs !! q = Some (File text) → fs' !! q = Some (File text).
Proof.
  intros run Hzone Hnow Hs Hns Hrun. subst run. cbn beta in *.
  assert (fs' ⊆ fs) as Hsub.
  { pose proof (shrinks_clean_output cwd clk yaml fnm recipe out format skip
                  logs cb cs fs) as H. by rewrite Hrun in H. }
  rewrite clean_output_eq, Hs, Hns in Hrun.
  destruct (is_dir fs (s_bld_dir s)) eqn:Hex; [discriminate|].
  cbn [negb Bool.eqb] in Hrun. unfold cleaning in Hrun.
  rewrite Hns in Hrun. cbn [when] in Hrun.
  apply bind_ok_inv in Hrun as (fsA & [] & HA & Hrun). injection HA as <-.
  apply bind_ok_inv in Hrun as (fsB & [] & HB & Hrun).
  apply bind_ok_inv in Hrun as (fsC & [] & HC & Hrun).
  change (when cb (_remove_empty_folder (joinpath (s_out s) "bld")) fsB
          = (fsC, Ok tt)) in HC.
  rewrite when_remove_eq in HB, HC.
  injection HB as HB. injection HC as HC.
  pose proof (locate_package_fs fnm (s_out s) (s_variant s) format fsC) as Hfs.
  rewrite Hrun in Hfs. cbn [fst] in Hfs. subst fs'.
  assert (∀ q text, fs !! q = Some (File text) → fsC !! q = Some (File text))
    as Hkept.
  { intros q text Hq. subst fsC fsB.
    destruct cb, cs; auto using remove_empty_folder_keeps_files. }
  split; [|exact Hkept].
  rewrite clean_output_eq.
  rewrite (derive_session_same_zone cwd clk yaml clk') by done.
  destruct (derive_session_recipe_file cwd clk yaml _ _ _ _ _ _ Hs)
    as [text Htext].
  rewrite (derive_session_recipe cwd clk yaml recipe out skip logs fs fsC)
    by (by rewrite (Hkept _ _ Htext)).
  rewrite Hs, Hns.
  destruct (is_dir fsC (s_bld_dir s)) eqn:Hex';
    [apply (is_dir_mono _ _ _ Hsub) in Hex'; congruence|].
  cbn [negb Bool.eqb]. unfold cleaning. rewrite Hns. cbn [when].
  rewrite (bind_ok _ _ fsC fsC tt) by done.
  assert (when cs (_remove_empty_folder (joinpath (s_out s) "src_cache")) fsC
          = (fsC, Ok tt)) as HB'.
  { rewrite when_remove_eq. destruct cs; [|done]. f_equal.
    pose proof (remove_empty_folder_idempotent
                  (joinpath (s_out s) "src_cache") fs) as Hidem.
    rewrite HB in Hidem. apply (f_equal fst) in Hidem. cbn [fst] in Hidem.
    destruct cb; [|by subst fsC].
    subst fsC. apply remove_empty_folder_settled; [|done].
    intros c Heq. rewrite joinpath_bld, joinpath_src_cache in Heq.
    apply (f_equal length) in Heq. rewrite !length_app in Heq.
    cbn in Heq. lia. }
  rewrite (bind_ok _ _ _ _ _ HB').
  assert (when cb (_remove_empty_folder (joinpath (s_out s) "bld")) fsC
          = (fsC, Ok tt)) as HC'.
  { rewrite when_remove_eq. destruct cb; [|done]. f_equal.
    pose proof (remove_empty_folder_idempotent
                  (joinpath (s_out s) "bld") fsB) as Hidem.
    rewrite HC in Hidem. by apply (f_equal fst) in Hidem. }
  rewrite (bind_ok _ _ fsC fsC tt); [exact Hrun|exact HC'].
Qed.
End SkippedFacts.

(** ** The further properties on the sample build *)

Lemma sample_translate (check : bool) :
  translate (sample_opt check) = Ok (sample_delegated check).
Proof. by destruct check. Defined.

Lemma sample_failed_build (check : bool) :
  rattler_build work (Some "/opt/conda") failing_popen failed_parse
    (sample_delegated check) fs_failed
  = (fs_failed, Ok (failed_logs, 1)).
Proof. by destruct check. Defined.

Lemma sample_good_build :
  rattler_build work (Some "/opt/conda") building_popen built_parse
    (sample_delegated true) fs_failed
  = (fs_failed, Ok (built_logs, 0)).
Proof. reflexivity. Defined.

Lemma sample_skipped_run :
  sample_clean (PBool true) skipped_logs true true fs_cleaned
  = (fs_cleaned, Ok package_file).
Proof. run_eval. Qed.

Lemma sample_session_cleaned :
  derive_session work utc_clock yaml_mypkg "/work/recipe" "/work/out"
    (PBool true) skipped_logs fs_cleaned = Ok session_skipped.
Proof. vm_compute. reflexivity. Defined.

(** Without a prefix nothing is started; with one, but no executable below
    it, neither. *)
Lemma rattler_build_needs_executable_witness :
  rattler_build work None failing_popen failed_parse (sample_delegated true)
    fs_failed
  = (fs_failed, Err (FileNotFoundError "No conda prefix found."))
  ∧ is_file fs_cleaned exec_file = false
  ∧ rattler_build work (Some "/opt/conda") failing_popen failed_parse
      (sample_delegated true) fs_cleaned
    = (fs_cleaned, Err (FileNotFoundError "rattler-build not found.")).
Proof.
  split.
  - apply (proj1 (rattler_build_needs_executable work None failing_popen
             failed_parse (sample_delegated true) fs_failed)).
    left. reflexivity.
  - assert (is_file fs_cleaned exec_file = false) as Hfile
      by (vm_compute; reflexivity).
    split; [exact Hfile|].
    apply (proj2 (rattler_build_needs_executable work (Some "/opt/conda")
             failing_popen failed_parse (sample_delegated true) fs_cleaned)
             "/opt/conda").
    + reflexivity.
    + discriminate.
    + exact Hfile.
Defined.

(** The failed sample build is a normal return of [rattler_build]. *)
Lemma rattler_build_streams_witness :
  is_file fs_failed exec_file = true
  ∧ rattler_build work (Some "/opt/conda") failing_popen failed_parse
      (sample_delegated true) fs_failed
    = (fs_failed, Ok (failed_logs, 1)).
Proof.
  assert (is_file fs_failed exec_file = true) as Hfile
    by (vm_compute; reflexivity).
  split; [exact Hfile|].
  apply (rattler_build_streams work (Some "/opt/conda") failing_popen
           failed_parse (sample_delegated true) fs_failed "/opt/conda"
           fs_failed "" "two lines of JSON" 1).
  - reflexivity.
  - discriminate.
  - exact Hfile.
  - reflexivity.
Defined.

(** [test="skip"] is no key of the table. *)
Lemma bad_option_rejected_first_witness :
  translate (with_modes (sample_opt true) (PStr "skip") (PBool false))
  = Err (KeyError "'skip'")
  ∧ optimized_rattler_build work utc_clock yaml_mypkg no_fnmatch
      (Some "/opt/conda") failing_popen failed_parse braces_dumps fixed_mktemp
      None (with_modes (sample_opt true) (PStr "skip") (PBool false)) fs_failed
    = (fs_failed, Err (KeyError "'skip'")).
Proof.
  assert (translate (with_modes (sample_opt true) (PStr "skip") (PBool false))
          = Err (KeyError "'skip'")) as Hbad by (vm_compute; reflexivity).
  split; [exact Hbad|].
  exact (bad_option_rejected_first work utc_clock yaml_mypkg no_fnmatch
           (Some "/opt/conda") failing_popen failed_parse braces_dumps
           fixed_mktemp None _ _ fs_failed Hbad).
Defined.

(** The failed sample build without [check]: no package, code 1. *)
Lemma driver_return_shape_witness :
  sample_driver false fs_failed = (fs_failed, Ok (None, failed_logs, 1))
  ∧ o_check (sample_opt false) = false
  ∧ ∃ c fs1, translate (sample_opt false) = Ok c
             ∧ rattler_build work (Some "/opt/conda") failing_popen
                 failed_parse c fs_failed = (fs1, Ok (failed_logs, 1)).
Proof.
  assert (sample_driver false fs_failed = (fs_failed, Ok (None, failed_logs, 1)))
    as Hrun by run_eval.
  split; [exact Hrun|].
  destruct (driver_return_shape work utc_clock yaml_mypkg no_fnmatch
              (Some "/opt/conda") failing_popen failed_parse braces_dumps
              fixed_mktemp None (sample_opt false) fs_failed fs_failed None
              failed_logs 1 Hrun) as [_ Hex].
  split; [reflexivity|exact Hex].
Defined.

(** The sample build succeeding: the caches are cleaned and the package is
    returned; [conda_index] is not installed. *)
Lemma zero_exit_witness :
  translate (sample_opt true) = Ok (sample_delegated true)
  ∧ rattler_build work (Some "/opt/conda") building_popen built_parse
      (sample_delegated true) fs_failed
    = (fs_failed, Ok (built_logs, 0))
  ∧ sample_build (sample_opt true) fs_failed
    = (fs_done, Ok (Some package_file, built_logs, 0)).
Proof.
  split; [exact (sample_translate true)|].
  split; [exact sample_good_build|].
  pose proof (proj2 (zero_exit work utc_clock yaml_mypkg no_fnmatch
                (Some "/opt/conda") building_popen built_parse braces_dumps
                fixed_mktemp None (sample_opt true) (sample_delegated true)
                fs_failed fs_failed built_logs (sample_translate true)
                sample_good_build) package_file) as H.
  unfold sample_build. etransitivity.
  - apply H; [vm_compute; reflexivity|right; reflexivity].
  - apply run_is; [vm_compute; reflexivity|reflexivity].
Defined.

(** The source cache of the sample build is not empty and stays; the empty
    [/tmp] would go. *)
Lemma remove_empty_folder_spec_witness :
  is_Some (fs_built !! (["work"; "out"; "src_cache"] ++ ["mypkg-1.0.tar.gz"]))
  ∧ (_remove_empty_folder ["work"; "out"; "src_cache"] fs_built).1 = fs_built
  ∧ is_dir fs_failed ["tmp"] = true
  ∧ (_remove_empty_folder ["tmp"] fs_failed).1 !! ["tmp"] = None.
Proof.
  assert (is_Some (fs_built !! (["work"; "out"; "src_cache"]
                                ++ ["mypkg-1.0.tar.gz"]))) as Hsome
    by (vm_compute; eauto).
  split; [exact Hsome|]. split.
  - exact (proj1 (proj2 (proj2 (remove_empty_folder_spec
             ["work"; "out"; "src_cache"] fs_built))) _ Hsome).
  - assert (is_dir fs_failed ["tmp"] = true) as Hdir
      by (vm_compute; reflexivity).
    split; [exact Hdir|].
    apply (proj1 (proj2 (proj2 (proj2 (proj2 (remove_empty_folder_spec
             ["tmp"] fs_failed))))) Hdir).
    apply iterdir_empty. decide_by_computation.
Defined.

(** The package of the sample build was there before the cleaning. *)
Lemma clean_output_only_removes_witness :
  (sample_clean (PBool false) built_logs true true fs_built).1 !! package_file
  = Some (File "")
  ∧ fs_built !! package_file = Some (File "").
Proof.
  assert ((sample_clean (PBool false) built_logs true true fs_built).1
          !! package_file = Some (File "")) as H
    by (vm_compute; reflexivity).
  split; [exact H|].
  exact (clean_output_only_removes work utc_clock yaml_mypkg no_fnmatch
           "/work/recipe" "/work/out" "conda" (PBool false) built_logs
           true true fs_built package_file (File "") H).
Defined.

(** The package of the sample build is none of the paths to clean. *)
Lemma clean_output_frame_witness :
  (sample_clean (PBool false) built_logs true true fs_built).1 !! package_file
  = fs_built !! package_file.
Proof.
  assert (¬ removable work session_built built_logs true true package_file)
    as Hnot.
  { intros [[_ [[k Hk] | He]] | [_ [He | [_ He]]]].
    - vm_compute in Hk. discriminate Hk.
    - vm_compute in He. discriminate He.
    - vm_compute in He. discriminate He.
    - vm_compute in He. discriminate He. }
  exact (clean_output_frame work utc_clock yaml_mypkg no_fnmatch
           "/work/recipe" "/work/out" "conda" (PBool false) built_logs
           true true fs_built session_built package_file sample_session Hnot).
Defined.

(** The line after the source-copy message is not looked at. *)
Lemma next_src_msg_first_witness :
  next_src_msg
    ([event "2024-01-15T10:30:00.500000Z" "Fetching source"]
     ++ event "2024-01-15T10:30:01.000000Z" "Copying source from url: a.tar.gz"
        :: [JNull])
  = Ok "Copying source from url: a.tar.gz".
Proof.
  apply (proj1 (next_src_msg_first
                  [event "2024-01-15T10:30:00.500000Z" "Fetching source"]
                  (event "2024-01-15T10:30:01.000000Z"
                         "Copying source from url: a.tar.gz")
                  [JNull]
                  ltac:(repeat constructor; eexists; split; reflexivity))).
  - reflexivity.
  - reflexivity.
Defined.

(** The skipped sample build. *)
Lemma skip_detection_witness :
  last skipped_logs
  = Some (event "2024-01-15T10:30:00.500000Z" "Skipping build for mypkg-1.0-py_0")
  ∧ s_variant session_skipped = "mypkg-1.0-py_0"
  ∧ s_not_skipped session_skipped = false.
Proof.
  split; [reflexivity|].
  destruct (skip_detection work utc_clock yaml_mypkg "/work/recipe" "/work/out"
              (PBool true) skipped_logs fs_built session_skipped
              (event "2024-01-15T10:30:00.123456Z"
                     "Build variant: mypkg-1.0-py_0")
              "mypkg-1.0-py_0" eq_refl eq_refl sample_session_skipped)
    as [Hvariant Hskipped].
  split; [exact Hvariant|].
  apply Hskipped. split; [reflexivity|].
  eexists. split; reflexivity.
Defined.

(** The sample log on a disk whose recipe directory is empty. *)
Lemma recipe_read_first_witness :
  ∃ m, sample_clean (PBool false) built_logs true true fs_no_recipe
       = (fs_no_recipe, Err (FileNotFoundError m)).
Proof.
  apply (recipe_read_first work utc_clock yaml_mypkg no_fnmatch
           "/work/recipe" "/work/out" "conda" (PBool false) built_logs
           true true fs_no_recipe).
  - vm_compute. lia.
  - vm_compute. reflexivity.
  - vm_compute. reflexivity.
Defined.

(** The sample build with the format [zip]: the caches are gone all the
    same. *)
Lemma unknown_format_fails_late_witness :
  _clean_output work utc_clock yaml_mypkg no_fnmatch "/work/recipe" "/work/out"
    "zip" (PBool false) built_logs true true fs_built
  = (fs_cleaned, Err (ValueError "Unknown package-format: zip")).
Proof.
  apply (unknown_format_fails_late work utc_clock yaml_mypkg no_fnmatch
           "/work/recipe" "/work/out" "zip" "conda" (PBool false) built_logs
           true true fs_built fs_cleaned package_file).
  - discriminate.
  - discriminate.
  - exact sample_first_run.
Defined.

(** The build directory of the sample build. *)
Lemma build_dir_location_witness :
  s_out session_built = ["work"; "out"]
  ∧ ∃ line iso ts,
      built_logs !! 1%nat = Some line
      ∧ getitem line "timestamp" = Ok iso
      ∧ _get_local_ts utc_clock iso = Ok ts
      ∧ s_bld_dir session_built
        = ["work"; "out"]
          ++ ["bld"; "rattler-build_" +:+ "mypkg" +:+ "_" +:+ pretty ts].
Proof.
  apply (build_dir_location work utc_clock yaml_mypkg "/work/recipe"
           "/work/out" (PBool false) built_logs fs_built session_built
           "package: {name: mypkg}" "mypkg" sample_session).
  - vm_compute. reflexivity.
  - reflexivity.
  - vm_compute. reflexivity.
Defined.

(** The skipped sample build, reconciled twice, an hour apart. *)
Lemma skipped_run_repeatable_witness :
  s_not_skipped session_skipped = false
  ∧ _clean_output work utc_clock_later yaml_mypkg no_fnmatch
      "/work/recipe" "/work/out" "conda" (PBool true) skipped_logs true true
      fs_cleaned
    = (fs_cleaned, Ok package_file)
  ∧ fs_cleaned !! package_file = Some (File "").
Proof.
  split; [reflexivity|].
  destruct (skipped_run_repeatable work utc_clock yaml_mypkg no_fnmatch
              utc_clock_later
              "/work/recipe" "/work/out" "conda" (PBool true) skipped_logs
              true true fs_cleaned fs_cleaned session_skipped package_file
              eq_refl eq_refl
              sample_session_cleaned eq_refl sample_skipped_run)
    as [Hagain Hkept].
  split; [exact Hagain|].
  apply Hkept. vm_compute. reflexivity.
Defined.
